(** * Movie Rating Analyzer: a shallow embedding of MOVIERATINGANALYZER.py

    The script is a linear pandas pipeline:
    [ensure_dataset] -> [load_and_clean] -> [explode_genres] ->
    aggregates and charts -> four CSV exports.

    Conventions of the embedding.
    - A Python [str] is a Rocq [string]; the character tests below are the
      ASCII part of Python's ([str.strip], [str.title], [str.split]).
    - A float64 that is not NaN is an exact rational [Q]; NaN is the missing
      value, as pandas treats it.  Rounding of float64 arithmetic and the
      infinities are not represented.
    - An Int64 is a [Z] inside the 64-bit signed range.
    - A table is a list of rows; a pandas column operation is a [map] over a
      column, and the row labels of the index are carried next to the rows.
    - What pandas, numpy and matplotlib contribute but the script does not
      spell out (the CSV reader and writer, number parsing and printing, the
      default sort algorithm, the PNG renderer) enters as Section variables. *)

From Stdlib Require Import List String Ascii Bool Arith ZArith QArith Lia.
From Stdlib Require Import Qround Permutation Sorted DecimalString.
From Stdlib Require OrderedTypeEx.
Import ListNotations.

Close Scope Q_scope.
Local Open Scope string_scope.
Local Open Scope list_scope.
Local Open Scope nat_scope.

(** ** Python string methods used by the script (ASCII) *)

Module PyStr.

(** [str.isspace] on one ASCII character: TAB, LF, VT, FF, CR,
    FS, GS, RS, US and the space. *)
Definition isspace (c : ascii) : bool :=
  let n := nat_of_ascii c in
  ((9 <=? n) && (n <=? 13)) || ((28 <=? n) && (n <=? 32)).

Definition isupper (c : ascii) : bool :=
  let n := nat_of_ascii c in (65 <=? n) && (n <=? 90).

Definition islower (c : ascii) : bool :=
  let n := nat_of_ascii c in (97 <=? n) && (n <=? 122).

Definition iscased (c : ascii) : bool := isupper c || islower c.

Definition upper (c : ascii) : ascii :=
  if islower c then ascii_of_nat (nat_of_ascii c - 32) else c.

Definition lower (c : ascii) : ascii :=
  if isupper c then ascii_of_nat (nat_of_ascii c + 32) else c.

Fixpoint lstrip (s : string) : string :=
  match s with
  | EmptyString => EmptyString
  | String c s' => if isspace c then lstrip s' else s
  end.

Fixpoint rstrip (s : string) : string :=
  match s with
  | EmptyString => EmptyString
  | String c s' =>
      match rstrip s' with
      | EmptyString => if isspace c then EmptyString else String c EmptyString
      | r => String c r
      end
  end.

(** [s.strip()] *)
Definition strip (s : string) : string := rstrip (lstrip s).

(** [s.title()]: a cased character is upper-cased when the character
    before it is not cased, and lower-cased otherwise. *)
Fixpoint title_from (previous_is_cased : bool) (s : string) : string :=
  match s with
  | EmptyString => EmptyString
  | String c s' =>
      String (if previous_is_cased then lower c else upper c)
             (title_from (iscased c) s')
  end.

Definition title (s : string) : string := title_from false s.

(** [s.split(sep)] for a one-character separator: the result always has at least one token. *)
Fixpoint split (sep : ascii) (s : string) : list string :=
  match s with
  | EmptyString => [EmptyString]
  | String c s' =>
      if Ascii.eqb c sep then EmptyString :: split sep s'
      else match split sep s' with
           | tok :: toks => String c tok :: toks
           | [] => [String c EmptyString]
           end
  end.

(** [str(z)] for a Python int. *)
Definition str_of_int (z : Z) : string := NilZero.string_of_int (Z.to_int z).

End PyStr.

(** ** Shapes of texts, for the statements below *)

(** Every character is whitespace. *)
Fixpoint all_space (s : string) : bool :=
  match s with
  | EmptyString => true
  | String c s' => PyStr.isspace c && all_space s'
  end.

Definition starts_with_space (s : string) : bool :=
  match s with
  | EmptyString => false
  | String c _ => PyStr.isspace c
  end.

Fixpoint ends_with_space (s : string) : bool :=
  match s with
  | EmptyString => false
  | String c s' =>
      match s' with
      | EmptyString => PyStr.isspace c
      | String _ _ => ends_with_space s'
      end
  end.

(** The character [c] occurs in [s]. *)
Fixpoint has_char (c : ascii) (s : string) : bool :=
  match s with
  | EmptyString => false
  | String d s' => Ascii.eqb d c || has_char c s'
  end.

(** [s.lower()] *)
Fixpoint casefold (s : string) : string :=
  match s with
  | EmptyString => EmptyString
  | String c s' => String (PyStr.lower c) (casefold s')
  end.

(** Two header labels that differ only in the case of their letters and
    in the whitespace around them. *)
Definition same_header (c c' : string) : Prop :=
  exists ws ws' t : string,
    all_space ws = true /\ all_space ws' = true /\
    c' = (ws ++ t ++ ws')%string /\ casefold t = casefold c.

(** ** Values, tables and failures *)

(** A cell of the table that [pd.read_csv] returns. *)
Inductive cell : Type :=
| NaN
| Str (s : string)
| Int (z : Z)
| Float (q : Q).

(** The raw table: header row and data rows; the index is the RangeIndex
    0, 1, 2, ... of the data rows. *)
Record DataFrame : Type := { columns : list string; data : list (list cell) }.

(** A row of the cleaned table (Movie Record). *)
Record movie : Type := { Title : string; Genre : string; Rating : Q; Year : Z }.

(** The cleaned table: each row with its index label. *)
Definition table : Type := list (nat * movie).

Definition set_Genre (g : string) (m : movie) : movie :=
  {| Title := Title m; Genre := g; Rating := Rating m; Year := Year m |}.

Definition set_Rating (r : Q) (m : movie) : movie :=
  {| Title := Title m; Genre := Genre m; Rating := r; Year := Year m |}.

Inductive error : Type :=
| FileNotFoundError
| IsADirectoryError
| FileExistsError
| ParserError
| AttributeError
| TypeError
| KeyError.

Inductive result (A : Type) : Type :=
| Ok (a : A)
| Raise (e : error).

Arguments Ok {A} a.
Arguments Raise {A} e.

Definition result_bind {A B : Type} (c : result A) (k : A -> result B) : result B :=
  match c with
  | Ok a => k a
  | Raise e => Raise e
  end.

Notation "x <~ c ;; k" := (result_bind c (fun x => k))
  (at level 61, c at next level, right associativity).

Fixpoint mapM {A B : Type} (f : A -> result B) (l : list A) : result (list B) :=
  match l with
  | [] => Ok []
  | a :: l' => b <~ f a ;; bs <~ mapM f l' ;; Ok (b :: bs)
  end.

(** ** The file system and the monad of the script's effects *)

Inductive node : Type :=
| File (content : string)
| Dir.

Definition fs : Type := string -> option node.

Definition update (p : string) (n : node) (s : fs) : fs :=
  fun q => if String.eqb q p then Some n else s q.

(** A computation reads and writes the file system and may raise; what
    was written before a failure stays written. *)
Definition M (A : Type) : Type := fs -> result A * fs.

Definition ret {A : Type} (a : A) : M A := fun s => (Ok a, s).

Definition raise {A : Type} (e : error) : M A := fun s => (Raise e, s).

Definition bind {A B : Type} (c : M A) (k : A -> M B) : M B :=
  fun s =>
    match c s with
    | (Ok a, s') => k a s'
    | (Raise e, s') => (Raise e, s')
    end.

Definition lift {A : Type} (r : result A) : M A := fun s => (r, s).

Notation "x <- c ;; k" := (bind c (fun x => k))
  (at level 61, c at next level, right associativity).

(** [os.path.exists(path)] *)
Definition exists_path (p : string) : M bool :=
  fun s => (Ok (match s p with Some _ => true | None => false end), s).

(** [open(path, "w")] followed by writing [content]. *)
Definition write_file (p : string) (content : string) : M unit :=
  fun s =>
    match s p with
    | Some Dir => (Raise IsADirectoryError, s)
    | _ => (Ok tt, update p (File content) s)
    end.

(** [open(path)] followed by reading everything. *)
Definition read_file (p : string) : M string :=
  fun s =>
    match s p with
    | Some (File content) => (Ok content, s)
    | Some Dir => (Raise IsADirectoryError, s)
    | None => (Raise FileNotFoundError, s)
    end.

(** [os.makedirs(path, exist_ok=True)] for a one-component path. *)
Definition makedirs (p : string) : M unit :=
  fun s =>
    match s p with
    | Some (File _) => (Raise FileExistsError, s)
    | Some Dir => (Ok tt, s)
    | None => (Ok tt, update p Dir s)
    end.

(** [os.path.join(a, b)] for a relative [b]. *)
Definition path_join (a b : string) : string := a ++ "/" ++ b.

(** A computation keeps a property of the file system when the property
    holds after it, whatever the outcome, if it held before. *)
Definition keeps {A : Type} (P : fs -> Prop) (c : M A) : Prop :=
  forall s, P s -> P (snd (c s)).

(** ** Numbers *)

Definition Qltb (x y : Q) : bool := negb (Qle_bool y x).

(** [Series.clip(lower, upper)] on one value. *)
Definition clip (lower upper x : Q) : Q :=
  if Qltb x lower then lower
  else if Qltb upper x then upper
  else x.

Definition Qsum (l : list Q) : Q := fold_left Qplus l 0%Q.

(** [.mean()] of a group of float64 values. *)
Definition mean (l : list Q) : Q := (Qsum l / inject_Z (Z.of_nat (List.length l)))%Q.

Definition int64_min : Z := (- 2 ^ 63)%Z.
Definition int64_max : Z := (2 ^ 63 - 1)%Z.

(** The cast of one float64 inside [.astype("Int64")]: the value is cast
    to int64 and must compare equal to the float it came from. *)
Definition safe_cast (q : Q) : result Z :=
  let z := Qfloor q in
  if Qeq_bool (inject_Z z) q && (int64_min <=? z)%Z && (z <=? int64_max)%Z
  then Ok z
  else Raise TypeError.

(** ** Frames: labelled columns *)

Definition frame : Type := list (string * list cell).

Definition enumerate {A : Type} (l : list A) : list (nat * A) :=
  combine (seq 0 (List.length l)) l.

(** The columns of the raw table; [pd.read_csv] fills the cells a short
    row lacks with NaN. *)
Definition frame_of (df : DataFrame) : frame :=
  map (fun '(j, name) => (name, map (fun row => nth j row NaN) (data df)))
      (enumerate (columns df)).

(** [df.columns = [f(c) for c in df.columns]] *)
Definition rename (f : string -> string) (fr : frame) : frame :=
  map (fun '(name, col) => (f name, col)) fr.

(** [c in df.columns] *)
Definition has_column (fr : frame) (c : string) : bool :=
  existsb (fun '(name, _) => String.eqb name c) fr.

(** [df[keep]]: for each label of [keep], every column that bears it. *)
Definition select (keep : list string) (fr : frame) : frame :=
  flat_map (fun c => filter (fun '(name, _) => String.eqb name c) fr) keep.

(** [df[c]]: the columns labelled [c] (a Series when there is exactly one). *)
Definition getitem (c : string) (fr : frame) : list (list cell) :=
  map snd (filter (fun '(name, _) => String.eqb name c) fr).

Definition canonical : list string := ["Title"; "Genre"; "Rating"; "Year"].

(** ** Grouping *)

Section GroupBy.

Context {K V : Type}.
Variable cmp : K -> K -> comparison.

Definition same_key (k k' : K) : bool :=
  match cmp k k' with Eq => true | _ => false end.

(** The group keys are kept unique and in increasing order
    ([groupby(..., sort=True)], the default). *)
Fixpoint insert_key (k : K) (ks : list K) : list K :=
  match ks with
  | [] => [k]
  | k' :: ks' =>
      match cmp k k' with
      | Eq => ks
      | Lt => k :: ks
      | Gt => k' :: insert_key k ks'
      end
  end.

Definition group_keys (keys : list K) : list K :=
  fold_left (fun ks k => insert_key k ks) keys [].

(** [df.groupby(key)]: each key with the rows that bear it, in their
    original order. *)
Definition groupby (key : V -> K) (rows : list V) : list (K * list V) :=
  map (fun k => (k, filter (fun r => same_key (key r) k) rows))
      (group_keys (map key rows)).

End GroupBy.

(** ** Sorting *)

(** A sort algorithm ([kind]): it arranges a list by a less-or-equal test. *)
Definition sorter : Type := forall A : Type, (A -> A -> bool) -> list A -> list A.

Definition total {A : Type} (leb : A -> A -> bool) : Prop :=
  forall x y, leb x y = true \/ leb y x = true.

Definition transitive {A : Type} (leb : A -> A -> bool) : Prop :=
  forall x y z, leb x y = true -> leb y z = true -> leb x z = true.

(** What every [kind] of [sort_values] promises: the rows are rearranged
    and come out in order.  Only the kinds [mergesort] and [stable] promise
    more, and the script asks for neither. *)
Definition sort_contract (kind : sorter) : Prop :=
  forall (A : Type) (leb : A -> A -> bool) (l : list A),
    Permutation l (kind A leb l) /\
    (total leb -> transitive leb ->
     StronglySorted (fun x y => leb x y = true) (kind A leb l)).

Fixpoint insert_sorted {A : Type} (leb : A -> A -> bool) (x : A) (l : list A) : list A :=
  match l with
  | [] => [x]
  | y :: l' => if leb x y then x :: l else y :: insert_sorted leb x l'
  end.

(** [x] put behind every leading element that is less or equal to it:
    where the last element of a list lands under a stable sort. *)
Fixpoint insert_behind {A : Type} (leb : A -> A -> bool) (x : A) (l : list A) : list A :=
  match l with
  | [] => [x]
  | y :: l' => if leb y x then y :: insert_behind leb x l' else x :: l
  end.

(** A stable kind: insertion sort. *)
Definition insertion_sort : sorter :=
  fun A leb l => fold_right (insert_sorted leb) [] l.

(** A kind that is not stable: rows with equal keys come out in the
    reverse of their original order. *)
Definition reversing_sort : sorter :=
  fun A leb l => insertion_sort A leb (rev l).

(** The spec's Top-N order: a stable sort of the rows, highest key first. *)
Definition stable_sort_descending {A : Type} (leb : A -> A -> bool) (l : list A) : list A :=
  insertion_sort A (fun x y => leb y x) l.

(** ** A small CSV dialect and number syntax

    The pipeline below is parametric in pandas' reader, writer, parser and
    printer.  The closed examples at the end of the file instantiate these
    with the functions of this module: comma-separated fields, a field
    quoted when it holds a comma, a quote or a line break, quotes doubled
    inside a quoted field, plain decimal numbers. *)

Module Toy.

Definition dquote : ascii := "034"%char.
Definition newline : ascii := "010"%char.

Definition digit (c : ascii) : option Z :=
  let n := nat_of_ascii c in
  if (48 <=? n) && (n <=? 57) then Some (Z.of_nat (n - 48)) else None.

(** Digits after the decimal point: [acc / scale] so far. *)
Fixpoint fraction (s : string) (acc : Z) (scale : positive) : option Q :=
  match s with
  | EmptyString => Some (acc # scale)%Q
  | String c s' =>
      match digit c with
      | Some d => fraction s' (10 * acc + d)%Z (10 * scale)%positive
      | None => None
      end
  end.

Fixpoint unsigned (s : string) (acc : Z) : option Q :=
  match s with
  | EmptyString => Some (inject_Z acc)
  | String c s' =>
      if Ascii.eqb c "." then fraction s' acc 1
      else match digit c with
           | Some d => unsigned s' (10 * acc + d)%Z
           | None => None
           end
  end.

Definition starts_with_digit (s : string) : bool :=
  match s with
  | String c _ => match digit c with Some _ => true | None => false end
  | EmptyString => false
  end.

(** Text to number: an optional minus sign, digits, an optional fraction. *)
Definition to_numeric_str (s : string) : option Q :=
  match s with
  | String "-" s' =>
      if starts_with_digit s' then option_map Qopp (unsigned s' 0) else None
  | _ => if starts_with_digit s then unsigned s 0 else None
  end.

Fixpoint has_point (s : string) : bool :=
  match s with
  | EmptyString => false
  | String c s' => Ascii.eqb c "." || has_point s'
  end.

(** Number to text: the integer part and one decimal digit. *)
Definition str_of_float (q : Q) : string :=
  let tenths := Qfloor (q * 10) in
  (if (tenths <? 0)%Z then "-" else "") ++
  PyStr.str_of_int (Z.abs tenths / 10) ++ "." ++ PyStr.str_of_int (Z.abs tenths mod 10).

(** The cell a field is read as. *)
Definition infer (field : string) : cell :=
  match field with
  | EmptyString => NaN
  | _ =>
      match to_numeric_str field with
      | Some q => if has_point field then Float q else Int (Qfloor q)
      | None => Str field
      end
  end.

Inductive scanning : Type := Plain | Quoted | QuoteSeen.

(** Fields and records of a text, left to right. *)
Fixpoint records (s : string) (st : scanning) (field : string) (row : list string)
  : list (list string) :=
  match s with
  | EmptyString =>
      match field, row with
      | EmptyString, [] => []
      | _, _ => [row ++ [field]]
      end
  | String c s' =>
      match st with
      | Quoted =>
          if Ascii.eqb c dquote then records s' QuoteSeen field row
          else records s' Quoted (field ++ String c EmptyString) row
      | _ =>
          if Ascii.eqb c dquote then
            match st with
            | QuoteSeen => records s' Quoted (field ++ String c EmptyString) row
            | _ => records s' Quoted field row
            end
          else if Ascii.eqb c "," then records s' Plain EmptyString (row ++ [field])
          else if Ascii.eqb c newline then (row ++ [field]) :: records s' Plain EmptyString []
          else records s' Plain (field ++ String c EmptyString) row
      end
  end.

Definition read_csv (content : string) : result DataFrame :=
  match records content Plain EmptyString [] with
  | [] => Raise ParserError
  | header :: rows =>
      if forallb (fun row => List.length row <=? List.length header) rows
      then Ok {| columns := header; data := map (map infer) rows |}
      else Raise ParserError
  end.

Fixpoint needs_quotes (s : string) : bool :=
  match s with
  | EmptyString => false
  | String c s' =>
      Ascii.eqb c "," || Ascii.eqb c dquote || Ascii.eqb c newline
      || Ascii.eqb c "013"%char || needs_quotes s'
  end.

Fixpoint double_quotes (s : string) : string :=
  match s with
  | EmptyString => EmptyString
  | String c s' =>
      if Ascii.eqb c dquote then String c (String c (double_quotes s'))
      else String c (double_quotes s')
  end.

Definition write_field (s : string) : string :=
  if needs_quotes s
  then String dquote (double_quotes s ++ String dquote EmptyString)
  else s.

Definition write_cell (x : cell) : string :=
  match x with
  | NaN => EmptyString
  | Str s => s
  | Int z => PyStr.str_of_int z
  | Float q => str_of_float q
  end.

Definition write_line (fields : list string) : string :=
  String.concat "," (map write_field fields) ++ String newline EmptyString.

Definition to_csv (header : list string) (rows : list (list cell)) : string :=
  write_line header ++ String.concat "" (map (fun row => write_line (map write_cell row)) rows).

(** The stand-in for the chart renderer: the bar labels, one per line. *)
Definition savefig (title xlabel ylabel : string) (bars : list (string * Q)) : string :=
  String.concat (String newline EmptyString) (title :: map fst bars).

(** A raw file for the closed examples: a header in another spelling, a
    column the script does not use, and rows that meet each cleaning rule. *)
Definition movies_csv : string :=
  to_csv [" title"; "GENRE"; "rating "; "Year"; "Votes"]
    [ [Str "Up"; Str "Animation, Family"; Float (83 # 10); Int 2009; Int 5];
      [Str "Nope"; Str "Horror"; Str "N/A"; Int 2022; Int 1];
      [Str " Big "; Str "Comedy, "; Int 15; Int 1988; Int 2];
      [Str "Low"; Str "Drama"; Int (-3); Int 2009; Int 7];
      [NaN; Str "Drama"; Float (75 # 10); Int 2020; Int 1];
      [Str "Old"; Str "Drama"; Float (70 # 10); Str "unknown"; Int 4] ].

(** A file system that holds this file and nothing else. *)
Definition disk : fs :=
  fun p => if String.eqb p "movies.csv" then Some (File movies_csv) else None.

(** The cleaned table of [movies_csv]. *)
Definition cleaned : table :=
  [ (0, {| Title := "Up"; Genre := "Animation, Family"; Rating := (83 # 10)%Q; Year := 2009%Z |});
    (2, {| Title := "Big"; Genre := "Comedy,"; Rating := 10%Q; Year := 1988%Z |});
    (3, {| Title := "Low"; Genre := "Drama"; Rating := 0%Q; Year := 2009%Z |});
    (4, {| Title := "nan"; Genre := "Drama"; Rating := (75 # 10)%Q; Year := 2020%Z |}) ].

End Toy.

(** ** Config *)

Definition DATA_PATH : string := "movies.csv".
Definition OK : string := "ok".

(** ** The script *)

Section Pipeline.

(** [str(x)] of a missing value under [astype(str)]: the text [nan] in
    pandas before 3.0 ([Some "nan"]), still missing from 3.0 on ([None]). *)
Variable str_of_missing : option string.
(** [str(x)] of a float64. *)
Variable str_of_float : Q -> string.
(** The number [pd.to_numeric] reads from a text, [None] where
    [errors="coerce"] puts NaN. *)
Variable to_numeric_str : string -> option Q.
(** [pd.read_csv] on the contents of a file. *)
Variable read_csv : string -> result DataFrame.
(** [DataFrame.to_csv(index=False)]: header and rows to text. *)
Variable to_csv : list string -> list (list cell) -> string.
(** The sort algorithm behind [sort_values] when no [kind] is given. *)
Variable kind : sorter.
(** The bytes [plt.savefig] writes for a bar chart with the given title,
    axis labels and bars. *)
Variable savefig : string -> string -> string -> list (string * Q) -> string.

(** *** Helpers: [ensure_dataset] *)

Definition sample : list movie :=
  [ {| Title := "Inception"; Genre := "Sci-Fi"; Rating := (88 # 10)%Q; Year := 2010 |};
    {| Title := "Titanic"; Genre := "Romance, Drama"; Rating := (78 # 10)%Q; Year := 1997 |};
    {| Title := "Interstellar"; Genre := "Sci-Fi, Drama"; Rating := (86 # 10)%Q; Year := 2014 |};
    {| Title := "The Dark Knight"; Genre := "Action, Crime"; Rating := (90 # 10)%Q; Year := 2008 |};
    {| Title := "Avengers: Endgame"; Genre := "Action, Superhero"; Rating := (84 # 10)%Q; Year := 2019 |};
    {| Title := "La La Land"; Genre := "Romance, Musical"; Rating := (80 # 10)%Q; Year := 2016 |};
    {| Title := "Parasite"; Genre := "Thriller, Drama"; Rating := (86 # 10)%Q; Year := 2019 |};
    {| Title := "Mad Max: Fury Road"; Genre := "Action, Adventure"; Rating := (81 # 10)%Q; Year := 2015 |};
    {| Title := "The Godfather"; Genre := "Crime, Drama"; Rating := (92 # 10)%Q; Year := 1972 |};
    {| Title := "Toy Story 3"; Genre := "Animation, Family"; Rating := (83 # 10)%Q; Year := 2010 |};
    {| Title := "Whiplash"; Genre := "Drama, Music"; Rating := (85 # 10)%Q; Year := 2014 |};
    {| Title := "Coco"; Genre := "Animation, Family"; Rating := (84 # 10)%Q; Year := 2017 |};
    {| Title := "Dangal"; Genre := "Drama, Sport"; Rating := (84 # 10)%Q; Year := 2016 |};
    {| Title := "3 Idiots"; Genre := "Comedy, Drama"; Rating := (84 # 10)%Q; Year := 2009 |};
    {| Title := "Joker"; Genre := "Crime, Drama"; Rating := (85 # 10)%Q; Year := 2019 |};
    {| Title := "The Shawshank Redemption"; Genre := "Drama"; Rating := (93 # 10)%Q; Year := 1994 |};
    {| Title := "Forrest Gump"; Genre := "Drama, Romance"; Rating := (88 # 10)%Q; Year := 1994 |};
    {| Title := "RRR"; Genre := "Action, Drama"; Rating := (80 # 10)%Q; Year := 2022 |};
    {| Title := "K.G.F: Chapter 2"; Genre := "Action, Crime"; Rating := (82 # 10)%Q; Year := 2022 |};
    {| Title := "The Avengers"; Genre := "Action, Superhero"; Rating := (80 # 10)%Q; Year := 2012 |} ]%Z.

(** The cells of a row under the columns Title, Genre, Rating, Year. *)
Definition movie_cells (m : movie) : list cell :=
  [Str (Title m); Str (Genre m); Float (Rating m); Int (Year m)].

Definition ensure_dataset (path : string) : M unit :=
  found <- exists_path path ;;
  if found then ret tt
  else
    let df := sample in
    write_file path (to_csv ["Title"; "Genre"; "Rating"; "Year"] (map movie_cells df)).

(** *** [load_and_clean] *)

(** [x.astype(str)] on one cell. *)
Definition astype_str (x : cell) : option string :=
  match x with
  | NaN => str_of_missing
  | Str s => Some s
  | Int z => Some (PyStr.str_of_int z)
  | Float q => Some (str_of_float q)
  end.

(** [pd.to_numeric(x, errors="coerce")] on one cell. *)
Definition to_numeric (x : cell) : option Q :=
  match x with
  | NaN => None
  | Str s => to_numeric_str s
  | Int z => Some (inject_Z z)
  | Float q => Some q
  end.

(** [col.astype("Int64")] on a float64 column: NaN becomes the missing
    value, every other value must be a whole number. *)
Definition astype_Int64 (col : list (option Q)) : result (list (option Z)) :=
  mapM (fun x => match x with
                 | None => Ok None
                 | Some q => z <~ safe_cast q ;; Ok (Some z)
                 end) col.

(** [df[c] = df[c].astype(str).str.strip()], guarded by
    [if c in df.columns]; with two columns labelled [c], [df[c]] is a
    DataFrame and has no [.str]. *)
Definition strip_column (c : string) (fr : frame) : result (option (list (option string))) :=
  match getitem c fr with
  | [] => Ok None
  | [col] => Ok (Some (map (fun x => option_map PyStr.strip (astype_str x)) col))
  | _ => Raise AttributeError
  end.

(** [df["Rating"] = pd.to_numeric(df["Rating"], errors="coerce")] *)
Definition numeric_column (c : string) (fr : frame) : result (option (list (option Q))) :=
  match getitem c fr with
  | [] => Ok None
  | [col] => Ok (Some (map to_numeric col))
  | _ => Raise TypeError
  end.

(** [df["Year"] = pd.to_numeric(df["Year"], errors="coerce").astype("Int64")] *)
Definition int_column (c : string) (fr : frame) : result (option (list (option Z))) :=
  match getitem c fr with
  | [] => Ok None
  | [col] => ys <~ astype_Int64 (map to_numeric col) ;; Ok (Some ys)
  | _ => Raise TypeError
  end.

(** One row of [dropna]: kept when none of the four values is missing. *)
Definition complete (row : nat * (option string * option string * option Q * option Z))
  : list (nat * movie) :=
  match row with
  | (i, (Some t, Some g, Some r, Some y)) =>
      [(i, {| Title := t; Genre := g; Rating := r; Year := y |})]
  | _ => []
  end.

(** [df.dropna(subset=["Title", "Genre", "Rating", "Year"])]; a label of
    [subset] that is not a column is a KeyError. *)
Definition dropna (index : list nat)
    (title genre : option (list (option string)))
    (rating : option (list (option Q))) (year : option (list (option Z)))
  : result table :=
  match title, genre, rating, year with
  | Some t, Some g, Some r, Some y =>
      Ok (flat_map complete
            (combine index (combine (combine (combine t g) r) y)))
  | _, _, _, _ => Raise KeyError
  end.

(** Lines 56 to 71: everything after [pd.read_csv]. *)
Definition clean (df : DataFrame) : result table :=
  let fr := rename (fun c => PyStr.title (PyStr.strip c)) (frame_of df) in
  let keep := filter (has_column fr) ["Title"; "Genre"; "Rating"; "Year"] in
  let fr := select keep fr in
  title <~ strip_column "Title" fr ;;
  genre <~ strip_column "Genre" fr ;;
  rating <~ numeric_column "Rating" fr ;;
  year <~ int_column "Year" fr ;;
  rows <~ dropna (seq 0 (List.length (data df))) title genre rating year ;;
  Ok (map (fun '(i, m) => (i, set_Rating (clip 0 10 (Rating m)) m)) rows).

Definition load_and_clean (path : string) : M table :=
  content <- read_file path ;;
  df <- lift (read_csv content) ;;
  lift (clean df).

(** *** [explode_genres] *)

Definition explode_genres (df : table) : table :=
  (* tmp["Genre"] = tmp["Genre"].astype(str).str.split(",") *)
  let tmp := map (fun '(i, m) => (i, m, PyStr.split "," (Genre m))) df in
  (* tmp = tmp.explode("Genre") *)
  let tmp := flat_map (fun '(i, m, tokens) => map (fun g => (i, set_Genre g m)) tokens) tmp in
  (* tmp["Genre"] = tmp["Genre"].str.strip() *)
  let tmp := map (fun '(i, m) => (i, set_Genre (PyStr.strip (Genre m)) m)) tmp in
  (* tmp = tmp[tmp["Genre"] != ""] *)
  filter (fun '(i, m) => negb (String.eqb (Genre m) "")) tmp.

(** *** Sorting and aggregates *)

(** [sort_values(by, ascending=...)] on one column, as pandas' [nargsort]
    does it: a descending sort reverses the rows, sorts them ascending
    and reverses the outcome. *)
Definition sort_values {A : Type} (leb : A -> A -> bool) (ascending : bool) (l : list A)
  : list A :=
  if ascending then kind A leb l else rev (kind A leb (rev l)).

Definition by_Rating {A : Type} (rating : A -> Q) (x y : A) : bool :=
  Qle_bool (rating x) (rating y).

(** Lines 85 to 89: the Genre Aggregate. *)
Definition genre_avg_of (exp : table) : list (string * Q) :=
  let groups := groupby String.compare (fun row => Genre (snd row)) exp in
  let means := map (fun '(g, rows) => (g, mean (map (fun row => Rating (snd row)) rows))) groups in
  sort_values (by_Rating snd) false means.

Definition chart_avg_rating_by_genre (exp : table) (out_path : string)
  : M (list (string * Q)) :=
  let genre_avg := genre_avg_of exp in
  _ <- write_file out_path
         (savefig "Average Rating by Genre" "Genre" "Average Rating" genre_avg) ;;
  ret genre_avg.

(** Line 103: the Year Aggregate. *)
Definition per_year_of (df : table) : list (Z * nat) :=
  let groups := groupby Z.compare (fun row => Year (snd row)) df in
  let sizes := map (fun '(y, rows) => (y, List.length rows)) groups in
  sort_values (fun a b => (fst a <=? fst b)%Z) true sizes.

Definition chart_movies_per_year (df : table) (out_path : string)
  : M (list (Z * nat)) :=
  let per_year := per_year_of df in
  _ <- write_file out_path
         (savefig "Movies Released Per Year" "Year" "Count"
            (map (fun '(y, n) => (PyStr.str_of_int y, inject_Z (Z.of_nat n))) per_year)) ;;
  ret per_year.

(** Line 124: the Top-N Table. *)
Definition top5_of (df_clean : table) : list (nat * (string * Q * Z)) :=
  map (fun '(i, m) => (i, (Title m, Rating m, Year m)))
      (firstn 5 (sort_values (by_Rating (fun row => Rating (snd row))) false df_clean)).

(** *** Main *)

(** The closing [print] writes to standard output, which is not part
    of the state. *)
Definition main : M unit :=
  _ <- makedirs OK ;;
  _ <- ensure_dataset DATA_PATH ;;
  df_clean <- load_and_clean DATA_PATH ;;
  let df_exploded := explode_genres df_clean in
  let top5 := top5_of df_clean in
  genre_avg <- chart_avg_rating_by_genre df_exploded (path_join OK "avg_rating_by_genre.png") ;;
  per_year <- chart_movies_per_year df_clean (path_join OK "movies_per_year.png") ;;
  _ <- write_file (path_join OK "Details_movies.csv")
         (to_csv ["Title"; "Genre"; "Rating"; "Year"] (map (fun row => movie_cells (snd row)) df_clean)) ;;
  _ <- write_file (path_join OK "genre_avg_ratings.csv")
         (to_csv ["Genre"; "Rating"] (map (fun '(g, r) => [Str g; Float r]) genre_avg)) ;;
  _ <- write_file (path_join OK "top5_movies.csv")
         (to_csv ["Title"; "Rating"; "Year"]
            (map (fun '(_, (t, r, y)) => [Str t; Float r; Int y]) top5)) ;;
  _ <- write_file (path_join OK "movies_per_year.csv")
         (to_csv ["Year"; "Count"] (map (fun '(y, n) => [Int y; Int (Z.of_nat n)]) per_year)) ;;
  ret tt.

(** *** Row-wise reading of the tables, for the statements below *)

(** The column of the raw table whose trimmed, title-cased label is [c]
    (the first such column). *)
Definition column (c : string) (df : DataFrame) : list cell :=
  hd [] (getitem c (rename (fun c => PyStr.title (PyStr.strip c)) (frame_of df))).

(** The cell of data row [i] under the label [c]. *)
Definition cell_at (c : string) (df : DataFrame) (i : nat) : cell :=
  nth i (column c df) NaN.

(** What cleaning makes of data row [i] alone: nothing when one of the
    four values is missing after conversion. *)
Definition clean_row (df : DataFrame) (i : nat) : option movie :=
  match option_map PyStr.strip (astype_str (cell_at "Title" df i)),
        option_map PyStr.strip (astype_str (cell_at "Genre" df i)),
        to_numeric (cell_at "Rating" df i),
        to_numeric (cell_at "Year" df i) with
  | Some t, Some g, Some r, Some y =>
      Some {| Title := t; Genre := g; Rating := clip 0 10 r; Year := Qfloor y |}
  | _, _, _, _ => None
  end.





(** The text a run reads as its input: the file at [DATA_PATH], or the
    sample table as [ensure_dataset] writes it when nothing is there. *)
Definition input_text (s : fs) : option string :=
  match s DATA_PATH with
  | Some (File content) => Some content
  | Some Dir => None
  | None => Some (to_csv ["Title"; "Genre"; "Rating"; "Year"] (map movie_cells sample))
  end.

(** The raw table with one more column at the right. *)
Definition with_column (df : DataFrame) (label : string) (cells : list cell) : DataFrame :=
  {| columns := columns df ++ [label];
     data := map (fun '(row, x) => row ++ [x]) (combine (data df) cells) |}.

(** The genre labels of a Genre text: split on the comma, trimmed, the
    empty ones left out. *)
Definition genre_tokens (genre : string) : list string :=
  filter (fun g => negb (String.eqb g ""))
         (map PyStr.strip (PyStr.split "," genre)).

(** The Top-N Table as the spec words it: stable sort, highest Rating
    first, the first five rows, the columns Title, Rating, Year. *)
Definition top5_spec (df_clean : table) : list (nat * (string * Q * Z)) :=
  map (fun '(i, m) => (i, (Title m, Rating m, Year m)))
      (firstn 5 (stable_sort_descending (by_Rating (fun row => Rating (snd row))) df_clean)).

(** The four CSV files of a run. *)
Definition csv_outputs : list string :=
  [ path_join OK "Details_movies.csv"; path_join OK "genre_avg_ratings.csv";
    path_join OK "top5_movies.csv"; path_join OK "movies_per_year.csv" ].

Definition png_outputs : list string :=
  [ path_join OK "avg_rating_by_genre.png"; path_join OK "movies_per_year.png" ].

(** The text a run writes to each of the four CSV files, from the
    cleaned table. *)
Definition csv_contents (df_clean : table) : list (string * string) :=
  [ (path_join OK "Details_movies.csv",
     to_csv ["Title"; "Genre"; "Rating"; "Year"]
       (map (fun row => movie_cells (snd row)) df_clean));
    (path_join OK "genre_avg_ratings.csv",
     to_csv ["Genre"; "Rating"]
       (map (fun '(g, r) => [Str g; Float r]) (genre_avg_of (explode_genres df_clean))));
    (path_join OK "top5_movies.csv",
     to_csv ["Title"; "Rating"; "Year"]
       (map (fun '(_, (t, r, y)) => [Str t; Float r; Int y]) (top5_of df_clean)));
    (path_join OK "movies_per_year.csv",
     to_csv ["Year"; "Count"]
       (map (fun '(y, n) => [Int y; Int (Z.of_nat n)]) (per_year_of df_clean))) ].

(** Every path a run may create or write. *)
Definition touched_paths : list string :=
  OK :: DATA_PATH :: png_outputs ++ csv_outputs.

(** ** Lists *)

Lemma flat_map_map {A B C : Type} (f : B -> list C) (g : A -> B) (l : list A) :
  flat_map f (map g l) = flat_map (fun a => f (g a)) l.
Proof.
  induction l as [|a l IH]; simpl; [reflexivity|].
  now rewrite IH.
Qed.

Lemma map_flat_map {A B C : Type} (f : B -> C) (g : A -> list B) (l : list A) :
  map f (flat_map g l) = flat_map (fun a => map f (g a)) l.
Proof.
  induction l as [|a l IH]; simpl; [reflexivity|].
  now rewrite map_app, IH.
Qed.

Lemma filter_flat_map {A B : Type} (p : B -> bool) (g : A -> list B) (l : list A) :
  filter p (flat_map g l) = flat_map (fun a => filter p (g a)) l.
Proof.
  induction l as [|a l IH]; simpl; [reflexivity|].
  now rewrite filter_app, IH.
Qed.

Lemma filter_map_comm {A B : Type} (p : B -> bool) (f : A -> B) (l : list A) :
  filter p (map f l) = map f (filter (fun a => p (f a)) l).
Proof.
  induction l as [|a l IH]; simpl; [reflexivity|].
  destruct (p (f a)); simpl; now rewrite IH.
Qed.

(** Two lists of the same length zipped are read off position by position. *)
Lemma combine_as_map {A B : Type} (da : A) (db : B) (l1 : list A) (l2 : list B) :
  List.length l1 = List.length l2 ->
  combine l1 l2 = map (fun i => (nth i l1 da, nth i l2 db)) (seq 0 (List.length l1)).
Proof.
  revert l2. induction l1 as [|a l1 IH]; intros [|b l2] Hlen; simpl in *;
    try discriminate; [reflexivity|].
  f_equal. rewrite <- seq_shift, map_map. apply IH. lia.
Qed.

Lemma combine_map_seq {A B : Type} (db : B) (f : nat -> A) (n : nat) (l : list B) :
  List.length l = n ->
  combine (map f (seq 0 n)) l = map (fun i => (f i, nth i l db)) (seq 0 n).
Proof.
  intros Hlen.
  assert (Hn : List.length (map f (seq 0 n)) = n) by now rewrite length_map, length_seq.
  rewrite (combine_as_map (f 0) db) by lia.
  rewrite Hn. apply map_ext_in. intros i Hi. apply in_seq in Hi.
  f_equal. rewrite map_nth. now rewrite seq_nth by lia.
Qed.
(** ** Frames *)

Lemma getitem_app (c : string) (fr1 fr2 : frame) :
  getitem c (fr1 ++ fr2) = getitem c fr1 ++ getitem c fr2.
Proof. unfold getitem. now rewrite filter_app, map_app. Qed.

Lemma getitem_filter (c c' : string) (fr : frame) :
  getitem c (filter (fun '(name, _) => String.eqb name c') fr)
  = if String.eqb c' c then getitem c fr else [].
Proof.
  unfold getitem. induction fr as [|[name col] fr IH]; simpl.
  - now destruct (String.eqb c' c).
  - destruct (String.eqb name c') eqn:E1; simpl.
    + apply String.eqb_eq in E1. subst name.
      destruct (String.eqb c' c); simpl; [now rewrite IH | exact IH].
    + destruct (String.eqb name c) eqn:E2; simpl; [|exact IH].
      apply String.eqb_eq in E2. subst name.
      rewrite String.eqb_sym, E1 in IH |- *. exact IH.
Qed.

Lemma getitem_absent (c : string) (fr : frame) :
  has_column fr c = false -> getitem c fr = [].
Proof.
  unfold has_column, getitem. induction fr as [|[name col] fr IH]; simpl; [reflexivity|].
  destruct (String.eqb name c); simpl; [discriminate | exact IH].
Qed.

(** [df[keep]] keeps every column that bears one of the four labels. *)
Lemma getitem_select (c : string) (fr : frame) :
  In c canonical ->
  getitem c (select (filter (has_column fr) canonical) fr) = getitem c fr.
Proof.
  intros Hc. unfold canonical in *. simpl filter.
  destruct (has_column fr "Title") eqn:Ht, (has_column fr "Genre") eqn:Hg,
           (has_column fr "Rating") eqn:Hr, (has_column fr "Year") eqn:Hy;
    simpl in Hc; destruct Hc as [<-|[<-|[<-|[<-|[]]]]];
    unfold select; simpl flat_map;
    repeat rewrite getitem_app; repeat rewrite getitem_filter; simpl;
    rewrite ?app_nil_r; try reflexivity;
    symmetry; now apply getitem_absent.
Qed.

Lemma getitem_length (c : string) (df : DataFrame) (f : string -> string) (col : list cell) :
  In col (getitem c (rename f (frame_of df))) ->
  List.length col = List.length (data df).
Proof.
  unfold getitem, rename, frame_of. intros H.
  apply in_map_iff in H. destruct H as [[name col'] [Heq H]]. simpl in Heq. subst col'.
  apply filter_In in H. destruct H as [H _].
  apply in_map_iff in H. destruct H as [[name' col'] [Heq H]].
  injection Heq as _ ->.
  apply in_map_iff in H. destruct H as [[j nm] [Heq H]].
  injection Heq as _ <-. now rewrite length_map.
Qed.

Lemma column_of_getitem (c : string) (df : DataFrame) (col : list cell) :
  getitem c (rename (fun c => PyStr.title (PyStr.strip c)) (frame_of df)) = [col] ->
  column c df = col /\ List.length col = List.length (data df).
Proof.
  intros H. split.
  - unfold column. now rewrite H.
  - apply (getitem_length c df (fun c => PyStr.title (PyStr.strip c))).
    rewrite H. now left.
Qed.

(** ** Failures *)

Lemma mapM_Ok {A B : Type} (f : A -> result B) (l : list A) (l' : list B) :
  mapM f l = Ok l' -> Forall2 (fun a b => f a = Ok b) l l'.
Proof.
  revert l'. induction l as [|a l IH]; simpl; intros l' H.
  - injection H as <-. constructor.
  - destruct (f a) as [b|e] eqn:Hb; simpl in H; [|discriminate].
    destruct (mapM f l) as [bs|e] eqn:Hbs; simpl in H; [|discriminate].
    injection H as <-. constructor; auto.
Qed.

Lemma safe_cast_Ok (q : Q) (z : Z) :
  safe_cast q = Ok z ->
  z = Qfloor q /\ (inject_Z z == q)%Q /\ (int64_min <= z <= int64_max)%Z.
Proof.
  unfold safe_cast. intros H.
  destruct (Qeq_bool (inject_Z (Qfloor q)) q) eqn:E1; simpl in H; [|discriminate].
  destruct (int64_min <=? Qfloor q)%Z eqn:E2; simpl in H; [|discriminate].
  destruct (Qfloor q <=? int64_max)%Z eqn:E3; simpl in H; [|discriminate].
  injection H as <-. apply Qeq_bool_iff in E1. split; [reflexivity|]. split; [exact E1|]. lia.
Qed.

(** A Year column that survives [astype("Int64")] holds, row by row,
    the whole number the cell was read as, or nothing. *)
Lemma astype_Int64_Ok (col : list (option Q)) (ys : list (option Z)) :
  astype_Int64 col = Ok ys ->
  List.length ys = List.length col /\
  forall i, nth i ys None = option_map Qfloor (nth i col None).
Proof.
  unfold astype_Int64. intros H. apply mapM_Ok in H.
  induction H as [|x y col ys Hxy H IH]; simpl.
  - split; [reflexivity|]. now intros [|i].
  - destruct IH as [IHl IHn]. split; [now rewrite IHl|].
    intros [|i]; [|apply IHn].
    destruct x as [q|]; simpl in *.
    + destruct (safe_cast q) as [z|e] eqn:Hz; simpl in Hxy; [|discriminate].
      injection Hxy as <-. apply safe_cast_Ok in Hz. now destruct Hz as [-> _].
    + now injection Hxy as <-.
Qed.

(** ** [load_and_clean]: the cleaned table, row by row *)

Lemma combine_seq_map {A B : Type} (g : A -> B) (l : list A) :
  combine l (map g l) = map (fun i => (i, g i)) l.
Proof.
  induction l as [|a l IH]; simpl; [reflexivity|]. now rewrite IH.
Qed.

(** The cleaned table is the raw table read top to bottom, each data row
    either cleaned on its own or left out. *)
Lemma clean_rows (df : DataFrame) (rows : table) :
  clean df = Ok rows ->
  rows = flat_map (fun i => match clean_row df i with
                            | Some m => [(i, m)]
                            | None => []
                            end)
                  (seq 0 (List.length (data df))).
Proof.
  intros H. unfold clean in H.
  set (fr0 := rename (fun c => PyStr.title (PyStr.strip c)) (frame_of df)) in H.
  unfold strip_column, numeric_column, int_column in H.
  rewrite !getitem_select in H by (unfold canonical; simpl; tauto).
  destruct (getitem "Title" fr0) as [|tc [|? ?]] eqn:Ht;
    destruct (getitem "Genre" fr0) as [|gc [|? ?]] eqn:Hg;
    destruct (getitem "Rating" fr0) as [|rc [|? ?]] eqn:Hr;
    destruct (getitem "Year" fr0) as [|yc [|? ?]] eqn:Hy;
    simpl in H; try discriminate;
    try (destruct (astype_Int64 _) in H; simpl in H; discriminate).
  destruct (astype_Int64 (map to_numeric yc)) as [ys|e] eqn:Hys; simpl in H; [|discriminate].
  injection H as <-.
  apply column_of_getitem in Ht, Hg, Hr, Hy.
  destruct Ht as [Ht Lt], Hg as [Hg Lg], Hr as [Hr Lr], Hy as [Hy Ly].
  apply astype_Int64_Ok in Hys. destruct Hys as [Lys Nys].
  rewrite length_map in Lys.
  set (n := List.length (data df)) in *.
  set (ft := fun x => option_map PyStr.strip (astype_str x)).
  rewrite (combine_as_map (ft NaN) (ft NaN)) by (rewrite !length_map; lia).
  rewrite length_map, Lt.
  rewrite (combine_map_seq (to_numeric NaN)) by (rewrite length_map; lia).
  rewrite (combine_map_seq None) by lia.
  rewrite combine_seq_map, flat_map_map, map_flat_map.
  apply flat_map_ext. intros i.
  rewrite !map_nth, Nys.
  change (@None Q) with (to_numeric NaN). rewrite map_nth.
  unfold clean_row, cell_at. rewrite Ht, Hg, Hr, Hy. subst ft. cbv beta.
  destruct (astype_str (nth i tc NaN)), (astype_str (nth i gc NaN)),
           (to_numeric (nth i rc NaN)), (to_numeric (nth i yc NaN)); reflexivity.
Qed.

Lemma cleaned_row_iff (df : DataFrame) (rows : table) (i : nat) (m : movie) :
  clean df = Ok rows ->
  In (i, m) rows <-> i < List.length (data df) /\ clean_row df i = Some m.
Proof.
  intros H. rewrite (clean_rows df rows H), in_flat_map. split.
  - intros [j [Hj Hin]]. apply in_seq in Hj.
    destruct (clean_row df j) as [m'|] eqn:E; [|contradiction].
    destruct Hin as [Heq|[]]. injection Heq as -> ->. split; [lia | exact E].
  - intros [Hi E]. exists i. split; [apply in_seq; lia|]. rewrite E. now left.
Qed.

Lemma load_and_clean_Ok (path : string) (s s' : fs) (rows : table) :
  load_and_clean path s = (Ok rows, s') ->
  s' = s /\
  exists content df,
    s path = Some (File content) /\ read_csv content = Ok df /\ clean df = Ok rows.
Proof.
  unfold load_and_clean, bind, read_file, lift. intros H.
  destruct (s path) as [[content|]|] eqn:Hp; try discriminate.
  destruct (read_csv content) as [df|e] eqn:Hdf; [|discriminate].
  injection H as H <-. split; [reflexivity|]. now exists content, df.
Qed.

(** ** Clamping *)

Lemma Qltb_lt (x y : Q) : Qltb x y = true <-> (x < y)%Q.
Proof.
  unfold Qltb. rewrite negb_true_iff. split.
  - intros H. apply Qnot_le_lt. intros Hle. apply Qle_bool_iff in Hle. congruence.
  - intros H. destruct (Qle_bool y x) eqn:E; [|reflexivity].
    apply Qle_bool_iff in E. exfalso. exact (Qlt_not_le _ _ H E).
Qed.

Lemma Qltb_ge (x y : Q) : Qltb x y = false <-> (y <= x)%Q.
Proof.
  unfold Qltb. rewrite negb_false_iff. apply Qle_bool_iff.
Qed.

Lemma clip_range (x : Q) : (0 <= clip 0 10 x /\ clip 0 10 x <= 10)%Q.
Proof.
  unfold clip. destruct (Qltb x 0) eqn:E1.
  - split; [apply Qle_refl | discriminate].
  - destruct (Qltb 10 x) eqn:E2.
    + split; [discriminate | apply Qle_refl].
    + apply Qltb_ge in E1, E2. now split.
Qed.

Lemma clip_below (x : Q) : (x < 0)%Q -> clip 0 10 x = 0%Q.
Proof. intros H. unfold clip. apply Qltb_lt in H. now rewrite H. Qed.

Lemma clip_above (x : Q) : (10 < x)%Q -> clip 0 10 x = 10%Q.
Proof.
  intros H. unfold clip.
  assert (E : Qltb x 0 = false).
  { apply Qltb_ge. apply Qlt_le_weak. apply Qlt_trans with 10%Q; [reflexivity | exact H]. }
  rewrite E. apply Qltb_lt in H. now rewrite H.
Qed.

Lemma clip_within (x : Q) : (0 <= x)%Q -> (x <= 10)%Q -> clip 0 10 x = x.
Proof.
  intros H0 H10. unfold clip.
  apply Qltb_ge in H0, H10. now rewrite H0, H10.
Qed.

(** C2. Every row of the cleaned table has its Rating in [0, 10]: it is
    the number read from the row's Rating cell, replaced by exactly 0 when
    below 0, by exactly 10 when above 10, and left as it is otherwise. *)
Theorem cleaned_rating_clamped (path : string) (s s' : fs) (rows : table) :
  load_and_clean path s = (Ok rows, s') ->
  exists content df,
    s path = Some (File content) /\ read_csv content = Ok df /\
    forall i m, In (i, m) rows ->
      (0 <= Rating m)%Q /\ (Rating m <= 10)%Q /\
      exists q, to_numeric (cell_at "Rating" df i) = Some q /\
                ((q < 0)%Q -> Rating m = 0%Q) /\
                ((10 < q)%Q -> Rating m = 10%Q) /\
                ((0 <= q)%Q -> (q <= 10)%Q -> Rating m = q).
Proof.
  intros H. apply load_and_clean_Ok in H. destruct H as [_ [content [df [Hp [Hdf Hc]]]]].
  exists content, df. split; [exact Hp|]. split; [exact Hdf|].
  intros i m Hin. apply (cleaned_row_iff df rows i m Hc) in Hin.
  destruct Hin as [_ Hrow]. unfold clean_row in Hrow.
  destruct (option_map PyStr.strip (astype_str (cell_at "Title" df i))); [|discriminate].
  destruct (option_map PyStr.strip (astype_str (cell_at "Genre" df i))); [|discriminate].
  destruct (to_numeric (cell_at "Rating" df i)) as [q|]; [|discriminate].
  destruct (to_numeric (cell_at "Year" df i)); [|discriminate].
  injection Hrow as <-. simpl.
  destruct (clip_range q) as [Hlo Hhi].
  split; [exact Hlo|]. split; [exact Hhi|].
  exists q. split; [reflexivity|].
  split; [apply clip_below|]. split; [apply clip_above | apply clip_within].
Qed.

(** ** Order of the cleaned rows *)

Lemma StronglySorted_filter {A : Type} (R : A -> A -> Prop) (p : A -> bool) (l : list A) :
  StronglySorted R l -> StronglySorted R (filter p l).
Proof.
  induction 1 as [|a l Hl IH Ha]; simpl; [constructor|].
  destruct (p a); [|exact IH].
  constructor; [exact IH|].
  apply Forall_forall. intros x Hx. apply filter_In in Hx.
  rewrite Forall_forall in Ha. now apply Ha.
Qed.

Lemma StronglySorted_seq (a n : nat) : StronglySorted lt (seq a n).
Proof.
  revert a. induction n as [|n IH]; intros a; simpl; constructor; [apply IH|].
  apply Forall_forall. intros x Hx. apply in_seq in Hx. lia.
Qed.

Lemma labels_of_kept {B : Type} (f : nat -> option B) (l : list nat) :
  map fst (flat_map (fun i => match f i with Some m => [(i, m)] | None => [] end) l)
  = filter (fun i => match f i with Some _ => true | None => false end) l.
Proof.
  induction l as [|i l IH]; simpl; [reflexivity|].
  rewrite map_app, IH. now destruct (f i).
Qed.

(** C10. The cleaned table is the raw table read top to bottom with rows
    left out and none moved: its rows are the cleaned data rows in the
    order of their positions, so the index labels strictly increase. *)
Theorem cleaning_keeps_order (path : string) (s s' : fs) (rows : table) :
  load_and_clean path s = (Ok rows, s') ->
  exists content df,
    s path = Some (File content) /\ read_csv content = Ok df /\
    rows = flat_map (fun i => match clean_row df i with
                              | Some m => [(i, m)]
                              | None => []
                              end)
                    (seq 0 (List.length (data df))) /\
    StronglySorted lt (map fst rows).
Proof.
  intros H. apply load_and_clean_Ok in H. destruct H as [_ [content [df [Hp [Hdf Hc]]]]].
  exists content, df. split; [exact Hp|]. split; [exact Hdf|].
  apply clean_rows in Hc. split; [exact Hc|].
  rewrite Hc, labels_of_kept. apply StronglySorted_filter, StronglySorted_seq.
Qed.

Lemma unreadable_number_dropped (df : DataFrame) (rows : table) (i : nat) :
  clean df = Ok rows ->
  to_numeric (cell_at "Rating" df i) = None \/ to_numeric (cell_at "Year" df i) = None ->
  forall m, ~ In (i, m) rows.
Proof.
  intros Hc Hnone m Hin. apply (cleaned_row_iff df rows i m Hc) in Hin.
  destruct Hin as [_ Hrow]. unfold clean_row in Hrow.
  destruct (option_map PyStr.strip (astype_str (cell_at "Title" df i))); [|discriminate].
  destruct (option_map PyStr.strip (astype_str (cell_at "Genre" df i))); [|discriminate].
  destruct Hnone as [E|E]; rewrite E in Hrow; [discriminate|].
  destruct (to_numeric (cell_at "Rating" df i)); discriminate.
Qed.

(** Where [astype(str)] keeps a missing value missing (pandas 3), a row
    without Title or Genre is dropped as well. *)
Lemma missing_text_dropped (df : DataFrame) (rows : table) (i : nat) :
  str_of_missing = None ->
  clean df = Ok rows ->
  cell_at "Title" df i = NaN \/ cell_at "Genre" df i = NaN ->
  forall m, ~ In (i, m) rows.
Proof.
  intros Hna Hc Hnan m Hin. apply (cleaned_row_iff df rows i m Hc) in Hin.
  destruct Hin as [_ Hrow]. unfold clean_row in Hrow.
  destruct Hnan as [E|E]; rewrite E in Hrow; simpl in Hrow; rewrite Hna in Hrow;
    simpl in Hrow; [discriminate|].
  destruct (option_map PyStr.strip (astype_str (cell_at "Title" df i))); discriminate.
Qed.

(** ** [explode_genres] *)

Lemma split_not_nil (sep : ascii) (s : string) : PyStr.split sep s <> [].
Proof.
  induction s as [|c s IH]; simpl; [discriminate|].
  destruct (Ascii.eqb c sep); [discriminate|].
  destruct (PyStr.split sep s); discriminate.
Qed.

Lemma explode_one (i : nat) (m : movie) (tokens : list string) :
  filter (fun '(_, e) => negb (String.eqb (Genre e) ""))
    (map (fun '(j, e) => (j, set_Genre (PyStr.strip (Genre e)) e))
       (map (fun g => (i, set_Genre g m)) tokens))
  = map (fun g => (i, set_Genre g m))
      (filter (fun g => negb (String.eqb g "")) (map PyStr.strip tokens)).
Proof.
  induction tokens as [|g tokens IH]; simpl; [reflexivity|].
  destruct (String.eqb (PyStr.strip g) ""); simpl; now rewrite IH.
Qed.

Lemma explode_genres_rows (df : table) :
  explode_genres df
  = flat_map (fun '(i, m) => map (fun g => (i, set_Genre g m)) (genre_tokens (Genre m))) df.
Proof.
  unfold explode_genres. rewrite flat_map_map, map_flat_map, filter_flat_map.
  apply flat_map_ext. intros [i m]. apply explode_one.
Qed.


(** ** Sorting *)



Lemma insert_sorted_perm {A : Type} (leb : A -> A -> bool) (x : A) (l : list A) :
  Permutation (x :: l) (insert_sorted leb x l).
Proof.
  induction l as [|y l IH]; simpl; [apply Permutation_refl|].
  destruct (leb x y); [apply Permutation_refl|].
  eapply perm_trans; [apply perm_swap|]. now apply perm_skip.
Qed.

Lemma insert_sorted_sorted {A : Type} (leb : A -> A -> bool) (x : A) (l : list A) :
  total leb -> transitive leb ->
  StronglySorted (fun a b => leb a b = true) l ->
  StronglySorted (fun a b => leb a b = true) (insert_sorted leb x l).
Proof.
  intros Htot Htr. induction 1 as [|y l Hl IH Hy]; simpl.
  - repeat constructor.
  - destruct (leb x y) eqn:E.
    + constructor; [now constructor|].
      constructor; [exact E|].
      eapply Forall_impl; [|exact Hy]. intros z Hz. exact (Htr x y z E Hz).
    + constructor; [exact IH|].
      assert (Hyx : leb y x = true) by (destruct (Htot x y); congruence).
      eapply Permutation_Forall; [apply insert_sorted_perm|].
      now constructor.
Qed.

Lemma insertion_sort_contract : sort_contract insertion_sort.
Proof.
  intros A leb l. unfold insertion_sort. split.
  - induction l as [|x l IH]; simpl; [constructor|].
    eapply perm_trans; [apply perm_skip, IH | apply insert_sorted_perm].
  - intros Htot Htr. induction l as [|x l IH]; simpl; [constructor|].
    now apply insert_sorted_sorted.
Qed.

Lemma reversing_sort_contract : sort_contract reversing_sort.
Proof.
  intros A leb l. unfold reversing_sort.
  destruct (insertion_sort_contract A leb (rev l)) as [Hperm Hsorted].
  split; [|exact Hsorted].
  eapply perm_trans; [apply Permutation_rev | exact Hperm].
Qed.

(** Sorting the reversed rows with a stable kind and reversing the outcome
    is the stable sort with the highest key first. *)

Lemma insert_commute {A : Type} (leb : A -> A -> bool) (a x : A) (s : list A) :
  total leb -> transitive leb ->
  insert_sorted leb a (insert_behind leb x s) = insert_behind leb x (insert_sorted leb a s).
Proof.
  intros Htot Htr. induction s as [|y s IH]; simpl.
  - destruct (leb a x) eqn:Eax; simpl; rewrite ?Eax; reflexivity.
  - destruct (leb y x) eqn:Eyx, (leb a y) eqn:Eay; simpl; rewrite ?Eyx, ?Eay.
    + now rewrite (Htr a y x Eay Eyx).
    + now rewrite IH.
    + destruct (leb a x) eqn:Eax; simpl; now rewrite ?Eyx, ?Eay.
    + assert (Eax : leb a x = false).
      { destruct (leb a x) eqn:Eax; [|reflexivity].
        assert (leb x y = true) by (destruct (Htot x y); congruence).
        rewrite (Htr a x y) in Eay by assumption. discriminate. }
      now rewrite Eax.
Qed.

Lemma insertion_sort_snoc {A : Type} (leb : A -> A -> bool) (x : A) (l : list A) :
  total leb -> transitive leb ->
  insertion_sort A leb (l ++ [x]) = insert_behind leb x (insertion_sort A leb l).
Proof.
  intros Htot Htr. unfold insertion_sort.
  induction l as [|a l IH]; simpl; [reflexivity|].
  rewrite IH. now apply insert_commute.
Qed.

Lemma insert_descending_snoc {A : Type} (leb : A -> A -> bool) (x y : A) (t : list A) :
  leb y x = true ->
  insert_sorted (fun u v => leb v u) x (t ++ [y])
  = insert_sorted (fun u v => leb v u) x t ++ [y].
Proof.
  intros Hyx. induction t as [|z t IH]; simpl; [now rewrite Hyx|].
  destruct (leb z x); simpl; [reflexivity | now rewrite IH].
Qed.

Lemma insert_descending_last {A : Type} (leb : A -> A -> bool) (x : A) (t : list A) :
  (forall z, In z t -> leb z x = false) ->
  insert_sorted (fun u v => leb v u) x t = t ++ [x].
Proof.
  induction t as [|z t IH]; intros H; simpl; [reflexivity|].
  rewrite (H z) by now left. rewrite IH; [reflexivity|].
  intros z' Hz'. apply H. now right.
Qed.

Lemma rev_insert_behind {A : Type} (leb : A -> A -> bool) (x : A) (s : list A) :
  transitive leb ->
  StronglySorted (fun u v => leb u v = true) s ->
  rev (insert_behind leb x s) = insert_sorted (fun u v => leb v u) x (rev s).
Proof.
  intros Htr. induction 1 as [|y s Hs IH Hy]; simpl; [reflexivity|].
  destruct (leb y x) eqn:Eyx; simpl.
  - rewrite IH. symmetry. now apply insert_descending_snoc.
  - symmetry. apply insert_descending_last.
    intros z Hz. apply in_app_or in Hz. destruct Hz as [Hz|[<-|[]]]; [|exact Eyx].
    apply in_rev in Hz. rewrite Forall_forall in Hy. specialize (Hy z Hz).
    destruct (leb z x) eqn:Ezx; [|reflexivity].
    rewrite (Htr y z x Hy Ezx) in Eyx. discriminate.
Qed.

Lemma stable_descending {A : Type} (leb : A -> A -> bool) (l : list A) :
  total leb -> transitive leb ->
  rev (insertion_sort A leb (rev l)) = stable_sort_descending leb l.
Proof.
  intros Htot Htr. unfold stable_sort_descending.
  induction l as [|x l IH]; simpl; [reflexivity|].
  rewrite insertion_sort_snoc by assumption.
  rewrite rev_insert_behind; [|exact Htr|now apply insertion_sort_contract].
  now rewrite IH.
Qed.

(** ** Grouping *)

Section GroupByFacts.

Context {K V : Type}.
Variable cmp : K -> K -> comparison.
Hypothesis cmp_eq : forall x y, cmp x y = Eq <-> x = y.
Hypothesis cmp_antisym : forall x y, cmp y x = CompOpp (cmp x y).
Hypothesis cmp_trans : forall x y z, cmp x y = Lt -> cmp y z = Lt -> cmp x z = Lt.

Let before (x y : K) : Prop := cmp x y = Lt.

Lemma same_key_eq (x y : K) : same_key cmp x y = true <-> x = y.
Proof.
  unfold same_key. rewrite <- cmp_eq. destruct (cmp x y); split; congruence.
Qed.

Lemma insert_key_In (x k : K) (ks : list K) :
  In x (insert_key cmp k ks) <-> x = k \/ In x ks.
Proof.
  induction ks as [|k' ks IH]; simpl; [intuition congruence|].
  destruct (cmp k k') eqn:E; simpl.
  - apply cmp_eq in E. subst k'. intuition congruence.
  - intuition congruence.
  - rewrite IH. intuition congruence.
Qed.

Lemma insert_key_sorted (k : K) (ks : list K) :
  StronglySorted before ks -> StronglySorted before (insert_key cmp k ks).
Proof.
  induction 1 as [|k' ks Hks IH Hk']; simpl.
  - repeat constructor.
  - destruct (cmp k k') eqn:E.
    + now constructor.
    + constructor; [now constructor|].
      constructor; [exact E|].
      eapply Forall_impl; [|exact Hk']. intros z Hz. exact (cmp_trans k k' z E Hz).
    + constructor; [exact IH|].
      apply Forall_forall. intros z Hz. apply insert_key_In in Hz.
      destruct Hz as [->|Hz].
      * unfold before. rewrite cmp_antisym, E. reflexivity.
      * rewrite Forall_forall in Hk'. now apply Hk'.
Qed.

Lemma fold_insert_In (x : K) (keys acc : list K) :
  In x (fold_left (fun ks k => insert_key cmp k ks) keys acc) <-> In x keys \/ In x acc.
Proof.
  revert acc. induction keys as [|k keys IH]; intros acc; simpl; [tauto|].
  rewrite IH, insert_key_In. intuition congruence.
Qed.

Lemma fold_insert_sorted (keys acc : list K) :
  StronglySorted before acc ->
  StronglySorted before (fold_left (fun ks k => insert_key cmp k ks) keys acc).
Proof.
  revert acc. induction keys as [|k keys IH]; intros acc Hacc; simpl; [exact Hacc|].
  apply IH. now apply insert_key_sorted.
Qed.

Lemma group_keys_In (x : K) (keys : list K) :
  In x (group_keys cmp keys) <-> In x keys.
Proof. unfold group_keys. rewrite fold_insert_In. simpl. tauto. Qed.

Lemma group_keys_sorted (keys : list K) : StronglySorted before (group_keys cmp keys).
Proof. apply fold_insert_sorted. constructor. Qed.

Lemma before_irrefl (x : K) : ~ before x x.
Proof.
  unfold before. intros H. assert (E : cmp x x = Eq) by now apply cmp_eq. congruence.
Qed.

Lemma sorted_NoDup (ks : list K) : StronglySorted before ks -> NoDup ks.
Proof.
  induction 1 as [|k ks Hks IH Hk]; constructor; [|exact IH].
  intros Hin. rewrite Forall_forall in Hk. exact (before_irrefl k (Hk k Hin)).
Qed.

Lemma group_keys_NoDup (keys : list K) : NoDup (group_keys cmp keys).
Proof. apply sorted_NoDup, group_keys_sorted. Qed.

Lemma groupby_keys (key : V -> K) (rows : list V) :
  map fst (groupby cmp key rows) = group_keys cmp (map key rows).
Proof.
  unfold groupby. rewrite map_map. simpl. apply map_id.
Qed.

Lemma groupby_In (key : V -> K) (rows : list V) (k : K) (g : list V) :
  In (k, g) (groupby cmp key rows) ->
  g = filter (fun r => same_key cmp (key r) k) rows /\ In k (map key rows) /\ g <> [].
Proof.
  unfold groupby. intros H. apply in_map_iff in H. destruct H as [k' [Heq Hk]].
  injection Heq as -> <-. apply (proj1 (group_keys_In _ _)) in Hk.
  split; [reflexivity|]. split; [exact Hk|].
  apply in_map_iff in Hk. destruct Hk as [r [Hr Hin]].
  intros Hnil.
  assert (Hf : In r (filter (fun r => same_key cmp (key r) k) rows)).
  { apply filter_In. split; [exact Hin|]. now apply same_key_eq. }
  rewrite Hnil in Hf. contradiction.
Qed.

(** The groups of distinct keys that cover every row split the rows. *)
Lemma groups_partition (key : V -> K) (rows : list V) (ks : list K) :
  NoDup ks -> (forall r, In r rows -> In (key r) ks) ->
  list_sum (map (fun k => List.length (filter (fun r => same_key cmp (key r) k) rows)) ks)
  = List.length rows.
Proof.
  intros Hnd. induction rows as [|r rows IH]; intros Hcover; simpl.
  - induction ks as [|k ks IHk]; simpl; [reflexivity|].
    inversion Hnd; subst. now apply IHk.
  - rewrite <- IH by (intros r' Hr'; apply Hcover; now right).
    assert (Hin : In (key r) ks) by (apply Hcover; now left).
    clear IH Hcover. induction ks as [|k ks IHk]; simpl; [contradiction|].
    inversion Hnd as [|? ? Hk Hnd']; subst.
    destruct (same_key cmp (key r) k) eqn:E; simpl.
    + apply same_key_eq in E. subst k.
      f_equal. f_equal.
      clear IHk Hin Hnd. induction ks as [|k ks IHk]; simpl; [reflexivity|].
      assert (E : same_key cmp (key r) k = false).
      { destruct (same_key cmp (key r) k) eqn:E; [|reflexivity].
        apply same_key_eq in E. subst k. exfalso. apply Hk. now left. }
      rewrite E. f_equal. apply IHk.
      * intros Hin. apply Hk. now right.
      * now inversion Hnd'.
    + destruct Hin as [Heq|Hin].
      * subst k. assert (same_key cmp (key r) (key r) = true) by now apply same_key_eq.
        congruence.
      * rewrite (IHk Hnd' Hin). lia.
Qed.

End GroupByFacts.


Lemma string_compare_eq (x y : string) : String.compare x y = Eq <-> x = y.
Proof. apply OrderedTypeEx.String_as_OT.cmp_eq. Qed.


Lemma Z_compare_trans (x y z : Z) :
  Z.compare x y = Lt -> Z.compare y z = Lt -> Z.compare x z = Lt.
Proof. rewrite !Z.compare_lt_iff. lia. Qed.

Lemma Z_compare_antisym (x y : Z) : Z.compare y x = CompOpp (Z.compare x y).
Proof. apply Z.compare_antisym. Qed.


Lemma same_key_Z (x y : Z) : same_key Z.compare x y = Z.eqb x y.
Proof.
  unfold same_key. destruct (Z.eqb_spec x y) as [->|Hne].
  - now rewrite Z.compare_refl.
  - destruct (Z.compare x y) eqn:E; try reflexivity.
    apply Z.compare_eq_iff in E. contradiction.
Qed.

(** ** [sort_values] under the contract of every kind *)

Hypothesis kind_contract : sort_contract kind.

Lemma sort_values_perm {A : Type} (leb : A -> A -> bool) (ascending : bool) (l : list A) :
  Permutation l (sort_values leb ascending l).
Proof.
  unfold sort_values. destruct ascending.
  - apply kind_contract.
  - eapply perm_trans; [apply Permutation_rev|].
    eapply perm_trans; [apply (kind_contract A leb (rev l))|].
    apply Permutation_rev.
Qed.

Lemma sort_values_ascending {A : Type} (leb : A -> A -> bool) (l : list A) :
  total leb -> transitive leb ->
  StronglySorted (fun x y => leb x y = true) (sort_values leb true l).
Proof. intros Htot Htr. now apply kind_contract. Qed.


Lemma by_Rating_total {A : Type} (rating : A -> Q) : total (by_Rating rating).
Proof.
  intros x y. unfold by_Rating.
  destruct (Qlt_le_dec (rating y) (rating x)) as [H|H].
  - right. apply Qle_bool_iff. now apply Qlt_le_weak.
  - left. now apply Qle_bool_iff.
Qed.

Lemma by_Rating_transitive {A : Type} (rating : A -> Q) : transitive (by_Rating rating).
Proof.
  intros x y z. unfold by_Rating. rewrite !Qle_bool_iff. apply Qle_trans.
Qed.

Lemma StronglySorted_weaken {A : Type} (R R' : A -> A -> Prop) (l : list A) :
  (forall x y, R x y -> R' x y) -> StronglySorted R l -> StronglySorted R' l.
Proof.
  intros Himp. induction 1 as [|a l Hl IH Ha]; constructor; [exact IH|].
  eapply Forall_impl; [|exact Ha]. intros y. apply Himp.
Qed.


(** ** The Top-N Table *)


(** ** The Genre Aggregate *)




(** ** The Year Aggregate *)

Lemma chart_movies_per_year_Ok (df : table) (out_path : string) (s s' : fs)
    (per_year : list (Z * nat)) :
  chart_movies_per_year df out_path s = (Ok per_year, s') ->
  per_year = per_year_of df.
Proof.
  unfold chart_movies_per_year, bind, ret. intros H.
  destruct (write_file out_path _ s) as [[[]|e] s1]; [|discriminate].
  now injection H as <- _.
Qed.

Lemma list_sum_perm (l l' : list nat) : Permutation l l' -> list_sum l = list_sum l'.
Proof. induction 1; simpl; lia. Qed.

Lemma sorted_distinct_keys {B : Type} (l : list (Z * B)) :
  NoDup (map fst l) ->
  StronglySorted (fun a b => (fst a <=? fst b)%Z = true) l ->
  StronglySorted (fun a b => (fst a < fst b)%Z) l.
Proof.
  intros Hnd. induction 1 as [|a l Hl IH Ha]; constructor.
  - apply IH. now inversion Hnd.
  - simpl in Hnd. inversion Hnd as [|? ? Hnotin _]; subst.
    apply Forall_forall. intros b Hb. rewrite Forall_forall in Ha.
    specialize (Ha b Hb). apply Z.leb_le in Ha.
    assert (fst a <> fst b) by (intros E; apply Hnotin; rewrite E; now apply in_map).
    lia.
Qed.

Lemma leb_fst_total {B : Type} : total (fun a b : Z * B => (fst a <=? fst b)%Z).
Proof. intros x y. rewrite !Z.leb_le. lia. Qed.

Lemma leb_fst_transitive {B : Type} : transitive (fun a b : Z * B => (fst a <=? fst b)%Z).
Proof. intros x y z. rewrite !Z.leb_le. lia. Qed.

(** C7. The Year Aggregate has one row for each Year of the cleaned
    table; its Count is the number of cleaned records of that Year; the
    rows come by rising Year; the Counts add up to the number of rows of
    the cleaned table. *)
Theorem year_aggregate_rows (df_clean : table) (out_path : string) (s s' : fs)
    (per_year : list (Z * nat)) :
  chart_movies_per_year df_clean out_path s = (Ok per_year, s') ->
  NoDup (map fst per_year) /\
  (forall y, In y (map fst per_year) <-> exists i m, In (i, m) df_clean /\ Year m = y) /\
  (forall y n, In (y, n) per_year ->
     n = List.length (filter (fun row => (Year (snd row) =? y)%Z) df_clean)) /\
  StronglySorted (fun a b => (fst a < fst b)%Z) per_year /\
  list_sum (map snd per_year) = List.length df_clean.
Proof.
  intros H. apply chart_movies_per_year_Ok in H. subst per_year.
  unfold per_year_of.
  set (key := fun row : nat * movie => Year (snd row)).
  set (groups := groupby Z.compare key df_clean).
  set (sizes := map (fun '(y, rows) => (y, List.length rows)) groups).
  set (leb := fun a b : Z * nat => (fst a <=? fst b)%Z).
  assert (Hperm : Permutation sizes (sort_values leb true sizes))
    by apply sort_values_perm.
  assert (Hkeys : map fst sizes = group_keys Z.compare (map key df_clean)).
  { transitivity (map fst groups); [|apply groupby_keys].
    unfold sizes. rewrite map_map. apply map_ext. now intros [y rows]. }
  assert (Hknd : NoDup (group_keys Z.compare (map key df_clean))).
  { apply (group_keys_NoDup Z.compare Z.compare_eq_iff Z_compare_antisym Z_compare_trans). }
  assert (Hnd : NoDup (map fst (sort_values leb true sizes))).
  { eapply Permutation_NoDup; [apply Permutation_map, Hperm|]. now rewrite Hkeys. }
  split; [exact Hnd|]. split; [|split; [|split]].
  - intros y.
    assert (Hy : In y (map fst (sort_values leb true sizes)) <-> In y (map key df_clean)).
    { rewrite <- (group_keys_In Z.compare Z.compare_eq_iff y (map key df_clean)), <- Hkeys.
      split; apply Permutation_in; [symmetry|]; apply Permutation_map, Hperm. }
    rewrite Hy, in_map_iff. split.
    + intros [[i m] [Hm Hin]]. now exists i, m.
    + intros [i [m [Hin Hm]]]. now exists (i, m).
  - intros y n Hyn.
    apply (Permutation_in _ (Permutation_sym Hperm)) in Hyn.
    unfold sizes in Hyn. apply in_map_iff in Hyn.
    destruct Hyn as [[y' rows] [Heq Hrows]]. injection Heq as -> <-.
    apply (groupby_In Z.compare Z.compare_eq_iff) in Hrows.
    destruct Hrows as [-> _]. f_equal.
    apply filter_ext. intros row. apply same_key_Z.
  - apply sorted_distinct_keys; [exact Hnd|].
    apply (sort_values_ascending leb sizes); [apply leb_fst_total | apply leb_fst_transitive].
  - rewrite <- (list_sum_perm _ _ (Permutation_map snd Hperm)).
    unfold sizes, groups, groupby. rewrite !map_map. simpl.
    apply (groups_partition Z.compare Z.compare_eq_iff key df_clean); [exact Hknd|].
    intros r Hr. apply (group_keys_In Z.compare Z.compare_eq_iff). now apply in_map.
Qed.

(** ** The file system *)

Lemma update_same (p : string) (n : node) (s : fs) : update p n s p = Some n.
Proof. unfold update. now rewrite String.eqb_refl. Qed.

Lemma update_other (p q : string) (n : node) (s : fs) : q <> p -> update p n s q = s q.
Proof. unfold update. intros H. apply String.eqb_neq in H. now rewrite H. Qed.

Lemma write_file_Ok (p content : string) (s s' : fs) (u : unit) :
  write_file p content s = (Ok u, s') ->
  s' = update p (File content) s /\ s p <> Some Dir.
Proof.
  unfold write_file. intros H.
  destruct (s p) as [[c|]|] eqn:Hp; try discriminate;
    injection H as _ <-; split; congruence.
Qed.

Lemma write_file_runs (p content : string) (s : fs) :
  s p <> Some Dir -> write_file p content s = (Ok tt, update p (File content) s).
Proof.
  unfold write_file. intros H. destruct (s p) as [[c|]|]; congruence.
Qed.

Lemma ensure_dataset_found (path : string) (s : fs) :
  s path <> None -> ensure_dataset path s = (Ok tt, s).
Proof.
  unfold ensure_dataset, bind, exists_path, ret. intros H.
  destruct (s path); [reflexivity | contradiction].
Qed.

Lemma ensure_dataset_absent (path : string) (s : fs) :
  s path = None ->
  ensure_dataset path s
  = (Ok tt, update path
              (File (to_csv ["Title"; "Genre"; "Rating"; "Year"] (map movie_cells sample))) s).
Proof.
  unfold ensure_dataset, bind, exists_path. intros H. rewrite H.
  unfold write_file. now rewrite H.
Qed.

(** C8. [ensure_dataset] does nothing when something exists at the
    path; otherwise it writes there, and nowhere else, the fixed table of
    20 records under the columns Title, Genre, Rating, Year as delimited
    text. *)
Theorem ensure_dataset_effect (path : string) (s : fs) :
  (s path <> None -> ensure_dataset path s = (Ok tt, s)) /\
  (s path = None ->
   exists s',
     ensure_dataset path s = (Ok tt, s') /\
     s' path = Some (File (to_csv ["Title"; "Genre"; "Rating"; "Year"]
                                  (map movie_cells sample))) /\
     forall q, q <> path -> s' q = s q) /\
  List.length sample = 20 /\
  Forall (fun row => exists t g r y, row = [Str t; Str g; Float r; Int y])
         (map movie_cells sample).
Proof.
  split; [apply ensure_dataset_found|]. split; [|split; [reflexivity|]].
  - intros H. eexists. split; [now apply ensure_dataset_absent|].
    split; [apply update_same|]. intros q Hq. now apply update_other.
  - apply Forall_forall. intros row Hrow. apply in_map_iff in Hrow.
    destruct Hrow as [m [<- _]]. unfold movie_cells. eauto.
Qed.

(** ** A run of [main] *)

Lemma makedirs_Ok (p : string) (s s' : fs) (u : unit) :
  makedirs p s = (Ok u, s') ->
  s' p = Some Dir /\ forall q, q <> p -> s' q = s q.
Proof.
  unfold makedirs. intros H. destruct (s p) as [[c|]|] eqn:Hp; try discriminate;
    injection H as _ <-.
  - now split.
  - split; [apply update_same|]. intros q Hq. now apply update_other.
Qed.

Lemma ensure_dataset_Ok (path : string) (s : fs) :
  exists s', ensure_dataset path s = (Ok tt, s') /\
             (forall q, q <> path -> s' q = s q) /\
             (forall n, s path = Some n -> s' path = Some n) /\
             s' path <> None.
Proof.
  destruct (s path) as [n|] eqn:Hp.
  - exists s. split; [apply ensure_dataset_found; congruence|].
    split; [reflexivity|]. split; [intros; congruence | congruence].
  - eexists. split; [now apply ensure_dataset_absent|].
    split; [intros q Hq; now apply update_other|].
    split; [congruence|]. rewrite update_same. discriminate.
Qed.

Lemma main_Ok (s s1 : fs) :
  main s = (Ok tt, s1) ->
  exists content df rows,
    s1 DATA_PATH = Some (File content) /\
    (forall n, s DATA_PATH = Some n -> n = File content) /\
    read_csv content = Ok df /\ clean df = Ok rows /\
    s1 OK = Some Dir /\
    (forall p c, In (p, c) (csv_contents rows) -> s1 p = Some (File c)) /\
    (forall p, In p png_outputs -> exists c, s1 p = Some (File c)).
Proof.
  unfold main. intros H. unfold bind at 1 in H.
  destruct (makedirs OK s) as [[[]|e] s0] eqn:Hmk; [|discriminate].
  apply makedirs_Ok in Hmk. destruct Hmk as [Hdir Hs0].
  unfold bind at 1 in H.
  destruct (ensure_dataset_Ok DATA_PATH s0) as [s0' [He [Hother [Hkeep Hsome]]]].
  rewrite He in H. unfold bind at 1 in H.
  destruct (load_and_clean DATA_PATH s0') as [[rows|e] s0''] eqn:Hload; [|discriminate].
  apply load_and_clean_Ok in Hload.
  destruct Hload as [-> [content [df [Hp [Hdf Hc]]]]].
  unfold chart_avg_rating_by_genre, chart_movies_per_year in H.
  unfold bind, ret in H.
  repeat match type of H with
         | context [write_file ?p ?c ?st] =>
             let E := fresh "Hw" in
             destruct (write_file p c st) as [[[]|?] ?] eqn:E; [|discriminate];
             apply write_file_Ok in E; destruct E as [-> _]
         end.
  injection H as <-.
  exists content, df, rows.
  split; [|split; [|split; [exact Hdf|split; [exact Hc|split; [|split]]]]].
  - unfold update. simpl. exact Hp.
  - intros n Hn. rewrite <- (Hs0 DATA_PATH) in Hn by discriminate.
    apply Hkeep in Hn. congruence.
  - unfold update. simpl. rewrite Hother by discriminate. exact Hdir.
  - intros p c Hpc. simpl in Hpc.
    destruct Hpc as [Hpc|[Hpc|[Hpc|[Hpc|[]]]]]; injection Hpc as <- <-;
      unfold update; simpl; reflexivity.
  - intros p Hpng. simpl in Hpng.
    destruct Hpng as [<-|[<-|[]]]; unfold update; simpl; eauto.
Qed.

Lemma load_and_clean_runs (path content : string) (df : DataFrame) (rows : table) (s : fs) :
  s path = Some (File content) -> read_csv content = Ok df -> clean df = Ok rows ->
  load_and_clean path s = (Ok rows, s).
Proof.
  intros Hp Hdf Hc. unfold load_and_clean, bind, read_file, lift.
  now rewrite Hp, Hdf, Hc.
Qed.

Lemma main_runs (s : fs) (content : string) (df : DataFrame) (rows : table) :
  s OK = Some Dir -> s DATA_PATH = Some (File content) ->
  read_csv content = Ok df -> clean df = Ok rows ->
  (forall p, In p (png_outputs ++ csv_outputs) -> s p <> Some Dir) ->
  exists s1,
    main s = (Ok tt, s1) /\
    forall p c, In (p, c) (csv_contents rows) -> s1 p = Some (File c).
Proof.
  intros Hdir Hp Hdf Hc Hfree.
  assert (Hmk : makedirs OK s = (Ok tt, s)) by (unfold makedirs; now rewrite Hdir).
  assert (He : ensure_dataset DATA_PATH s = (Ok tt, s))
    by (apply ensure_dataset_found; congruence).
  pose proof (load_and_clean_runs DATA_PATH content df rows s Hp Hdf Hc) as Hl.
  unfold main. unfold bind at 1. rewrite Hmk.
  unfold bind at 1. rewrite He.
  unfold bind at 1. rewrite Hl.
  unfold chart_avg_rating_by_genre, chart_movies_per_year, bind, ret.
  repeat (rewrite write_file_runs
           by (unfold update; simpl; apply Hfree; simpl; tauto)).
  eexists. split; [reflexivity|].
  intros p c Hpc. simpl in Hpc.
  destruct Hpc as [Hpc|[Hpc|[Hpc|[Hpc|[]]]]]; injection Hpc as <- <-;
    unfold update; simpl; reflexivity.
Qed.

(** [Details_movies.csv] holds the cleaned rows in the order of the input. *)
Lemma details_csv_rows (s s1 : fs) :
  main s = (Ok tt, s1) ->
  exists content df,
    s1 DATA_PATH = Some (File content) /\ read_csv content = Ok df /\
    s1 (path_join OK "Details_movies.csv")
    = Some (File (to_csv ["Title"; "Genre"; "Rating"; "Year"]
                    (map (fun row => movie_cells (snd row))
                       (flat_map (fun i => match clean_row df i with
                                           | Some m => [(i, m)]
                                           | None => []
                                           end)
                                 (seq 0 (List.length (data df))))))).
Proof.
  intros H. apply main_Ok in H.
  destruct H as [content [df [rows [Hp [_ [Hdf [Hc [_ [Hcsv _]]]]]]]]].
  exists content, df. split; [exact Hp|]. split; [exact Hdf|].
  rewrite <- (clean_rows df rows Hc). apply Hcsv. now left.
Qed.

(** ** Texts: trimming, splitting, letter case *)

Lemma lstrip_no_lead (s : string) : starts_with_space (PyStr.lstrip s) = false.
Proof.
  induction s as [|c s IH]; simpl; [reflexivity|].
  destruct (PyStr.isspace c) eqn:E; [exact IH | simpl; exact E].
Qed.

Lemma rstrip_no_trail (s : string) : ends_with_space (PyStr.rstrip s) = false.
Proof.
  induction s as [|c s IH]; simpl; [reflexivity|].
  destruct (PyStr.rstrip s) as [|d r] eqn:E.
  - destruct (PyStr.isspace c) eqn:Ec; simpl; [reflexivity | exact Ec].
  - simpl. simpl in IH. exact IH.
Qed.

Lemma rstrip_keeps_lead (s : string) :
  starts_with_space s = false -> starts_with_space (PyStr.rstrip s) = false.
Proof.
  destruct s as [|c s]; simpl; [reflexivity|]. intros Hc.
  destruct (PyStr.rstrip s); [rewrite Hc|]; simpl; exact Hc.
Qed.

Lemma lstrip_fixed (s : string) : starts_with_space s = false -> PyStr.lstrip s = s.
Proof. destruct s as [|c s]; simpl; [reflexivity|]. now intros ->. Qed.

Lemma rstrip_fixed (s : string) : ends_with_space s = false -> PyStr.rstrip s = s.
Proof.
  induction s as [|c s IH]; simpl; [reflexivity|].
  destruct s as [|d s'].
  - simpl. now intros ->.
  - intros H. rewrite (IH H). reflexivity.
Qed.

Lemma strip_ends (s : string) :
  starts_with_space (PyStr.strip s) = false /\ ends_with_space (PyStr.strip s) = false.
Proof.
  unfold PyStr.strip. split.
  - apply rstrip_keeps_lead, lstrip_no_lead.
  - apply rstrip_no_trail.
Qed.

Lemma strip_fixed (s : string) :
  starts_with_space s = false -> ends_with_space s = false -> PyStr.strip s = s.
Proof.
  intros H1 H2. unfold PyStr.strip. rewrite (lstrip_fixed s H1). now apply rstrip_fixed.
Qed.

Lemma strip_idempotent (s : string) : PyStr.strip (PyStr.strip s) = PyStr.strip s.
Proof. destruct (strip_ends s) as [H1 H2]. now apply strip_fixed. Qed.

Lemma lstrip_no_char (c : ascii) (s : string) :
  has_char c s = false -> has_char c (PyStr.lstrip s) = false.
Proof.
  induction s as [|d s IH]; simpl; [reflexivity|]. intros H.
  apply orb_false_iff in H. destruct H as [Hd Hs].
  destruct (PyStr.isspace d); [now apply IH | simpl; now rewrite Hd, Hs].
Qed.

Lemma rstrip_no_char (c : ascii) (s : string) :
  has_char c s = false -> has_char c (PyStr.rstrip s) = false.
Proof.
  induction s as [|d s IH]; simpl; [reflexivity|]. intros H.
  apply orb_false_iff in H. destruct H as [Hd Hs]. specialize (IH Hs).
  destruct (PyStr.rstrip s) as [|e r].
  - destruct (PyStr.isspace d); simpl; [reflexivity | now rewrite Hd].
  - simpl in *. now rewrite Hd, IH.
Qed.

Lemma strip_no_char (c : ascii) (s : string) :
  has_char c s = false -> has_char c (PyStr.strip s) = false.
Proof. intros H. unfold PyStr.strip. now apply rstrip_no_char, lstrip_no_char. Qed.

(** No token of a split holds the separator. *)
Lemma split_no_sep (sep : ascii) (s : string) :
  Forall (fun tok => has_char sep tok = false) (PyStr.split sep s).
Proof.
  induction s as [|c s IH]; simpl; [now repeat constructor|].
  destruct (Ascii.eqb c sep) eqn:E; [now constructor|].
  destruct (PyStr.split sep s) as [|tok toks]; [now repeat constructor; simpl; rewrite E|].
  inversion IH as [|? ? Htok Htoks]; subst. constructor; [|exact Htoks].
  simpl. now rewrite E, Htok.
Qed.

(** A text without the separator is its own single token. *)
Lemma split_whole (sep : ascii) (s : string) :
  has_char sep s = false -> PyStr.split sep s = [s].
Proof.
  induction s as [|c s IH]; simpl; [reflexivity|]. intros H.
  apply orb_false_iff in H. destruct H as [Hc Hs].
  now rewrite Hc, (IH Hs).
Qed.

(** ** More on the cleaned and the exploded table *)

(** X3. The Title and the Genre of a cleaned row carry no whitespace at
    either end (line 62). *)
Theorem cleaned_text_trimmed (path : string) (s s' : fs) (rows : table) :
  load_and_clean path s = (Ok rows, s') ->
  Forall (fun row =>
            starts_with_space (Title (snd row)) = false /\
            ends_with_space (Title (snd row)) = false /\
            starts_with_space (Genre (snd row)) = false /\
            ends_with_space (Genre (snd row)) = false) rows.
Proof.
  intros H. apply load_and_clean_Ok in H. destruct H as [_ [content [df [_ [_ Hc]]]]].
  apply Forall_forall. intros [i m] Hin.
  apply (cleaned_row_iff df rows i m Hc) in Hin. destruct Hin as [_ Hrow].
  unfold clean_row in Hrow.
  destruct (astype_str (cell_at "Title" df i)) as [t|]; simpl in Hrow; [|discriminate].
  destruct (astype_str (cell_at "Genre" df i)) as [g|]; simpl in Hrow; [|discriminate].
  destruct (to_numeric (cell_at "Rating" df i)); [|discriminate].
  destruct (to_numeric (cell_at "Year" df i)); [|discriminate].
  injection Hrow as <-. simpl.
  destruct (strip_ends t), (strip_ends g). auto.
Qed.

Lemma genre_token_shape (genre g : string) :
  In g (genre_tokens genre) ->
  g <> "" /\ has_char "," g = false /\
  starts_with_space g = false /\ ends_with_space g = false.
Proof.
  unfold genre_tokens. intros H. apply filter_In in H. destruct H as [H Hne].
  apply negb_true_iff, String.eqb_neq in Hne. split; [exact Hne|].
  apply in_map_iff in H. destruct H as [tok [<- Htok]].
  pose proof (split_no_sep "," genre) as Hsep. rewrite Forall_forall in Hsep.
  split; [apply strip_no_char, Hsep, Htok | apply strip_ends].
Qed.

Lemma genre_tokens_single (g : string) :
  g <> "" -> has_char "," g = false ->
  starts_with_space g = false -> ends_with_space g = false ->
  genre_tokens g = [g].
Proof.
  intros Hne Hc Hs He. unfold genre_tokens. rewrite (split_whole "," g Hc). simpl.
  rewrite (strip_fixed g Hs He). apply String.eqb_neq in Hne. now rewrite Hne.
Qed.

Lemma exploded_row_shape (df : table) (i : nat) (e : movie) :
  In (i, e) (explode_genres df) ->
  Genre e <> "" /\ has_char "," (Genre e) = false /\
  starts_with_space (Genre e) = false /\ ends_with_space (Genre e) = false.
Proof.
  intros Hin. rewrite explode_genres_rows in Hin.
  apply in_flat_map in Hin. destruct Hin as [[j m] [_ Hin]].
  apply in_map_iff in Hin. destruct Hin as [g [Heq Hg]].
  injection Heq as _ <-. simpl. exact (genre_token_shape (Genre m) g Hg).
Qed.

(** X6. The Genre of an exploded record is one label: not empty, without a
    comma, without whitespace at either end (lines 77 to 80). *)
Theorem exploded_genre_is_one_label (df : table) :
  Forall (fun row =>
            Genre (snd row) <> "" /\ has_char "," (Genre (snd row)) = false /\
            starts_with_space (Genre (snd row)) = false /\
            ends_with_space (Genre (snd row)) = false)
         (explode_genres df).
Proof.
  apply Forall_forall. intros [i e] Hin. simpl. now apply (exploded_row_shape df i e).
Qed.

Lemma flat_map_singletons {A : Type} (f : A -> list A) (l : list A) :
  (forall x, In x l -> f x = [x]) -> flat_map f l = l.
Proof.
  induction l as [|a l IH]; intros H; simpl; [reflexivity|].
  rewrite (H a) by now left. simpl. f_equal. apply IH. intros x Hx. apply H. now right.
Qed.

(** X7. Exploding an exploded table changes nothing. *)
Theorem explode_genres_idempotent (df : table) :
  explode_genres (explode_genres df) = explode_genres df.
Proof.
  rewrite (explode_genres_rows (explode_genres df)).
  apply flat_map_singletons. intros [i e] Hin.
  destruct (exploded_row_shape df i e Hin) as [Hne [Hc [Hs He]]].
  rewrite (genre_tokens_single (Genre e) Hne Hc Hs He). simpl.
  destruct e; reflexivity.
Qed.

(** ** Header labels *)

Lemma lower_lower (c : ascii) : PyStr.lower (PyStr.lower c) = PyStr.lower c.
Proof. destruct c as [[] [] [] [] [] [] [] []]; reflexivity. Qed.

Lemma upper_lower (c : ascii) : PyStr.upper (PyStr.lower c) = PyStr.upper c.
Proof. destruct c as [[] [] [] [] [] [] [] []]; reflexivity. Qed.

Lemma iscased_lower (c : ascii) : PyStr.iscased (PyStr.lower c) = PyStr.iscased c.
Proof. destruct c as [[] [] [] [] [] [] [] []]; reflexivity. Qed.

Lemma isspace_lower (c : ascii) : PyStr.isspace (PyStr.lower c) = PyStr.isspace c.
Proof. destruct c as [[] [] [] [] [] [] [] []]; reflexivity. Qed.

Lemma title_from_casefold (previous_is_cased : bool) (s : string) :
  PyStr.title_from previous_is_cased (casefold s) = PyStr.title_from previous_is_cased s.
Proof.
  revert previous_is_cased. induction s as [|c s IH]; intros b; simpl; [reflexivity|].
  rewrite iscased_lower, IH. destruct b; now rewrite ?lower_lower, ?upper_lower.
Qed.

Lemma casefold_lstrip (s : string) : casefold (PyStr.lstrip s) = PyStr.lstrip (casefold s).
Proof.
  induction s as [|c s IH]; simpl; [reflexivity|].
  rewrite isspace_lower. destruct (PyStr.isspace c); [exact IH | reflexivity].
Qed.

Lemma casefold_rstrip (s : string) : casefold (PyStr.rstrip s) = PyStr.rstrip (casefold s).
Proof.
  induction s as [|c s IH]; simpl; [reflexivity|].
  rewrite <- IH, isspace_lower.
  destruct (PyStr.rstrip s); simpl; [now destruct (PyStr.isspace c) | reflexivity].
Qed.

Lemma lstrip_spaces (ws s : string) :
  all_space ws = true -> PyStr.lstrip (ws ++ s) = PyStr.lstrip s.
Proof.
  induction ws as [|c ws IH]; simpl; [reflexivity|]. intros H.
  apply andb_true_iff in H. destruct H as [-> H]. now apply IH.
Qed.

Lemma rstrip_all_space (ws : string) : all_space ws = true -> PyStr.rstrip ws = "".
Proof.
  induction ws as [|c ws IH]; simpl; [reflexivity|]. intros H.
  apply andb_true_iff in H. destruct H as [Hc H]. now rewrite (IH H), Hc.
Qed.

Lemma rstrip_spaces (s ws : string) :
  all_space ws = true -> PyStr.rstrip (s ++ ws) = PyStr.rstrip s.
Proof.
  intros H. induction s as [|c s IH]; simpl; [now apply rstrip_all_space|].
  now rewrite IH.
Qed.

Lemma lstrip_all_space (ws : string) : all_space ws = true -> PyStr.lstrip ws = "".
Proof.
  induction ws as [|c ws IH]; simpl; [reflexivity|]. intros H.
  apply andb_true_iff in H. destruct H as [-> H]. now apply IH.
Qed.

Lemma lstrip_before_spaces (s ws : string) :
  all_space ws = true ->
  exists ws', all_space ws' = true /\ PyStr.lstrip (s ++ ws) = (PyStr.lstrip s ++ ws')%string.
Proof.
  intros H. induction s as [|c s IH]; simpl.
  - exists "". split; [reflexivity|]. now apply lstrip_all_space.
  - destruct (PyStr.isspace c); [exact IH|]. exists ws. now split.
Qed.

Lemma strip_padded (ws s ws' : string) :
  all_space ws = true -> all_space ws' = true ->
  PyStr.strip (ws ++ s ++ ws') = PyStr.strip s.
Proof.
  intros H H'. unfold PyStr.strip. rewrite (lstrip_spaces ws _ H).
  destruct (lstrip_before_spaces s ws' H') as [ws'' [H'' ->]].
  now apply rstrip_spaces.
Qed.

(** Labels that differ only in letter case and outer whitespace are
    normalised to the same label. *)
Lemma same_header_normalised (c c' : string) :
  same_header c c' ->
  PyStr.title (PyStr.strip c') = PyStr.title (PyStr.strip c).
Proof.
  intros [ws [ws' [t [H [H' [-> Ht]]]]]]. rewrite (strip_padded ws t ws' H H').
  unfold PyStr.title.
  rewrite <- (title_from_casefold false (PyStr.strip t)),
          <- (title_from_casefold false (PyStr.strip c)).
  unfold PyStr.strip. now rewrite !casefold_rstrip, !casefold_lstrip, Ht.
Qed.

Lemma map_combine_both {A B C D : Type} (f : B -> C) (g : A -> D) (l1 : list A) (l2 : list B) :
  map (fun '(j, name) => (f name, g j)) (combine l1 l2) = combine (map f l2) (map g l1).
Proof.
  revert l2. induction l1 as [|a l1 IH]; intros [|b l2]; simpl; try reflexivity.
  now rewrite IH.
Qed.

Lemma rename_frame_of (f : string -> string) (df : DataFrame) :
  rename f (frame_of df)
  = combine (map f (columns df))
            (map (fun j => map (fun row => nth j row NaN) (data df))
                 (seq 0 (List.length (columns df)))).
Proof.
  unfold rename, frame_of, enumerate. rewrite map_map.
  rewrite <- map_combine_both. apply map_ext. now intros [j name].
Qed.

(** X4. The header is read without regard to letter case and to whitespace
    around a label (line 56): two raw tables with the same data rows and
    headers that differ only so are cleaned alike. *)
Theorem header_spelling_ignored (df df' : DataFrame) :
  Forall2 same_header (columns df) (columns df') ->
  data df' = data df ->
  clean df' = clean df.
Proof.
  intros Hcols Hdata.
  assert (Hlen : List.length (columns df') = List.length (columns df))
    by (symmetry; exact (Forall2_length Hcols)).
  assert (Hmap : map (fun c => PyStr.title (PyStr.strip c)) (columns df')
                 = map (fun c => PyStr.title (PyStr.strip c)) (columns df)).
  { clear Hlen. induction Hcols as [|c c' cs cs' Hc _ IH]; simpl; [reflexivity|].
    now rewrite IH, (same_header_normalised c c' Hc). }
  unfold clean. rewrite !rename_frame_of, Hmap, Hlen, Hdata. reflexivity.
Qed.

(** ** When the cleaning fails *)








(** ** Means of ratings *)




(** ** Aggregates and the sort algorithm *)

Lemma StronglySorted_map_inv {A B : Type} (R : B -> B -> Prop) (f : A -> B) (l : list A) :
  StronglySorted R (map f l) -> StronglySorted (fun a b => R (f a) (f b)) l.
Proof.
  induction l as [|a l IH]; simpl; intros H; [constructor|].
  inversion H as [|? ? Hs Ha]; subst. constructor; [now apply IH|].
  apply Forall_forall. intros b Hb. rewrite Forall_forall in Ha.
  apply Ha. now apply in_map.
Qed.

(** Two strictly ascending arrangements of the same rows are equal. *)
Lemma strictly_sorted_unique {B : Type} (l l' : list (Z * B)) :
  StronglySorted (fun a b => (fst a < fst b)%Z) l ->
  StronglySorted (fun a b => (fst a < fst b)%Z) l' ->
  Permutation l l' -> l = l'.
Proof.
  intros Hl. revert l'. induction Hl as [|a l Hl IH Ha]; intros l' Hl' Hperm.
  - now apply Permutation_nil in Hperm.
  - destruct Hl' as [|a' l' Hl' Ha'].
    + apply Permutation_sym, Permutation_nil in Hperm. discriminate.
    + assert (Heq : a = a').
      { assert (Hin : In a (a' :: l')) by (apply (Permutation_in _ Hperm); now left).
        assert (Hin' : In a' (a :: l))
          by (apply (Permutation_in _ (Permutation_sym Hperm)); now left).
        destruct Hin as [Heq|Hin]; [now symmetry|].
        destruct Hin' as [Heq|Hin']; [exact Heq|].
        rewrite Forall_forall in Ha, Ha'.
        specialize (Ha a' Hin'). specialize (Ha' a Hin). lia. }
      subst a'. f_equal. apply IH; [exact Hl'|].
      now apply Permutation_cons_inv in Hperm.
Qed.

(** [groupby("Year")] already delivers the years in ascending order, so
    the closing [sort_values("Year")] of line 103 moves no row. *)
Lemma per_year_of_groups (df : table) :
  per_year_of df
  = map (fun '(y, rows) => (y, List.length rows))
        (groupby Z.compare (fun row : nat * movie => Year (snd row)) df).
Proof.
  unfold per_year_of.
  set (key := fun row : nat * movie => Year (snd row)).
  set (sizes := map (fun '(y, rows) => (y, List.length rows)) (groupby Z.compare key df)).
  set (leb := fun a b : Z * nat => (fst a <=? fst b)%Z).
  assert (Hkeys : map fst sizes = group_keys Z.compare (map key df)).
  { transitivity (map fst (groupby Z.compare key df)); [|apply groupby_keys].
    unfold sizes. rewrite map_map. apply map_ext. now intros [y rows]. }
  assert (Hsizes : StronglySorted (fun a b => (fst a < fst b)%Z) sizes).
  { apply (StronglySorted_map_inv Z.lt fst). rewrite Hkeys.
    eapply StronglySorted_weaken;
      [|apply (group_keys_sorted Z.compare Z.compare_eq_iff Z_compare_antisym
                 Z_compare_trans)].
    intros x y Hxy. now apply Z.compare_lt_iff. }
  symmetry. apply strictly_sorted_unique; [exact Hsizes| |apply sort_values_perm].
  apply sorted_distinct_keys.
  - eapply Permutation_NoDup; [apply Permutation_map, sort_values_perm|].
    rewrite Hkeys.
    apply (group_keys_NoDup Z.compare Z.compare_eq_iff Z_compare_antisym Z_compare_trans).
  - apply (sort_values_ascending leb sizes); [apply leb_fst_total | apply leb_fst_transitive].
Qed.

(** X10. The Year Aggregate is empty exactly when the cleaned table is, and
    the Genre Aggregate exactly when no record has a genre label: an empty
    table is no error. *)
Theorem aggregates_empty (df_clean : table) :
  (per_year_of df_clean = [] <-> df_clean = []) /\
  (genre_avg_of (explode_genres df_clean) = [] <->
   forall i m, In (i, m) df_clean -> genre_tokens (Genre m) = []) /\
  (top5_of df_clean = [] <-> df_clean = []).
Proof.
  split; [|split].
  - rewrite per_year_of_groups. split.
    + intros H. apply map_eq_nil in H. unfold groupby in H. apply map_eq_nil in H.
      destruct df_clean as [|row df]; [reflexivity|]. exfalso.
      assert (Hin : In (Year (snd row))
                       (group_keys Z.compare
                          (map (fun r : nat * movie => Year (snd r)) (row :: df)))).
      { apply (group_keys_In Z.compare Z.compare_eq_iff). now left. }
      rewrite H in Hin. contradiction.
    + now intros ->.
  - assert (Hexp : genre_avg_of (explode_genres df_clean) = []
                   <-> explode_genres df_clean = []).
    { unfold genre_avg_of. split.
      - intros H.
        pose proof (sort_values_perm (by_Rating (@snd string Q)) false
          (map (fun '(g, rows) => (g, mean (map (fun row : nat * movie => Rating (snd row)) rows)))
             (groupby String.compare (fun row : nat * movie => Genre (snd row))
                (explode_genres df_clean)))) as Hperm.
        rewrite H in Hperm. apply Permutation_sym, Permutation_nil in Hperm.
        apply map_eq_nil in Hperm. unfold groupby in Hperm. apply map_eq_nil in Hperm.
        destruct (explode_genres df_clean) as [|row exp]; [reflexivity|]. exfalso.
        assert (Hin : In (Genre (snd row))
                         (group_keys String.compare
                            (map (fun r : nat * movie => Genre (snd r)) (row :: exp)))).
        { apply (group_keys_In String.compare string_compare_eq). now left. }
        rewrite Hperm in Hin. contradiction.
      - intros ->.
        pose proof (sort_values_perm (by_Rating (@snd string Q)) false []) as Hperm.
        apply Permutation_nil in Hperm. exact Hperm. }
    rewrite Hexp, explode_genres_rows. clear Hexp. split.
    + intros H i m Hin.
      destruct (genre_tokens (Genre m)) as [|g toks] eqn:E; [reflexivity|]. exfalso.
      assert (Hg : In (i, set_Genre g m)
                      (flat_map (fun '(i, m) => map (fun g => (i, set_Genre g m))
                                                    (genre_tokens (Genre m))) df_clean)).
      { apply in_flat_map. exists (i, m). split; [exact Hin|]. rewrite E. now left. }
      rewrite H in Hg. contradiction.
    + intros H. induction df_clean as [|[i m] df IH]; simpl; [reflexivity|].
      rewrite (H i m) by now left. simpl. apply IH. intros j m' Hin. apply (H j m'). now right.
  - unfold top5_of. split.
    + intros H. apply map_eq_nil in H.
      pose proof (sort_values_perm (by_Rating (fun row : nat * movie => Rating (snd row)))
                    false df_clean) as Hperm.
      destruct (sort_values _ false df_clean) as [|row l] eqn:E.
      * now apply Permutation_sym, Permutation_nil in Hperm.
      * simpl in H. discriminate.
    + intros ->.
      pose proof (sort_values_perm (by_Rating (fun row : nat * movie => Rating (snd row)))
                    false []) as Hperm.
      apply Permutation_nil in Hperm. now rewrite Hperm.
Qed.

(** X11. With five rows or fewer the Top-N Table lists every row of the
    cleaned table. *)
Theorem top5_of_short_table (df_clean : table) :
  List.length df_clean <= 5 ->
  Permutation (map (fun '(i, m) => (i, (Title m, Rating m, Year m))) df_clean)
              (top5_of df_clean).
Proof.
  intros Hlen. unfold top5_of.
  set (sorted := sort_values (by_Rating (fun row : nat * movie => Rating (snd row)))
                             false df_clean).
  assert (Hperm : Permutation df_clean sorted) by apply sort_values_perm.
  rewrite firstn_all2 by (rewrite <- (Permutation_length Hperm); exact Hlen).
  now apply Permutation_map.
Qed.

(** ** What a run keeps *)

Lemma keeps_ret {A : Type} (P : fs -> Prop) (a : A) : keeps P (ret a).
Proof. now intros s H. Qed.

Lemma keeps_lift {A : Type} (P : fs -> Prop) (r : result A) : keeps P (lift r).
Proof. now intros s H. Qed.

Lemma keeps_bind {A B : Type} (P : fs -> Prop) (c : M A) (k : A -> M B) :
  keeps P c -> (forall a, keeps P (k a)) -> keeps P (bind c k).
Proof.
  intros Hc Hk s H. unfold bind. specialize (Hc s H).
  destruct (c s) as [[a|e] s1]; simpl in *; [now apply Hk | exact Hc].
Qed.

Lemma keeps_read_file (P : fs -> Prop) (p : string) : keeps P (read_file p).
Proof. intros s H. unfold read_file. now destruct (s p) as [[c|]|]. Qed.

Lemma keeps_exists_path (P : fs -> Prop) (p : string) : keeps P (exists_path p).
Proof. now intros s H. Qed.

Lemma keeps_write_file (q p content : string) (v : option node) :
  q <> p -> keeps (fun s => s q = v) (write_file p content).
Proof.
  intros Hq s H. unfold write_file.
  destruct (s p) as [[c|]|]; simpl; rewrite ?update_other; assumption.
Qed.

Lemma keeps_makedirs (q p : string) (v : option node) :
  q <> p -> keeps (fun s => s q = v) (makedirs p).
Proof.
  intros Hq s H. unfold makedirs.
  destruct (s p) as [[c|]|]; simpl; rewrite ?update_other; assumption.
Qed.

Lemma keeps_ensure_dataset (q path : string) (v : option node) :
  q <> path -> keeps (fun s => s q = v) (ensure_dataset path).
Proof.
  intros Hq. unfold ensure_dataset. apply keeps_bind; [apply keeps_exists_path|].
  intros [|]; [apply keeps_ret | now apply keeps_write_file].
Qed.

Lemma keeps_load_and_clean (P : fs -> Prop) (path : string) : keeps P (load_and_clean path).
Proof.
  unfold load_and_clean. apply keeps_bind; [apply keeps_read_file|].
  intros content. apply keeps_bind; intros; apply keeps_lift.
Qed.


Lemma main_keeps (q : string) (v : option node) :
  q <> OK -> ~ In q (png_outputs ++ csv_outputs) ->
  keeps (fun s' => s' q = v) (ensure_dataset DATA_PATH) ->
  keeps (fun s' => s' q = v) main.
Proof.
  intros Hok Hout Hens. simpl in Hout. unfold main.
  apply keeps_bind; [now apply keeps_makedirs|]. intros _.
  apply keeps_bind; [exact Hens|]. intros _.
  apply keeps_bind; [apply keeps_load_and_clean|]. intros df_clean.
  unfold chart_avg_rating_by_genre, chart_movies_per_year.
  repeat first [ apply keeps_ret
               | apply keeps_write_file; intros ->; apply Hout; simpl; tauto
               | apply keeps_bind; [|intros ?] ].
Qed.

Lemma main_keeps_input (n : node) : keeps (fun s' => s' DATA_PATH = Some n) main.
Proof.
  apply main_keeps; [discriminate | simpl; intuition discriminate|].
  intros s0 H0. destruct (ensure_dataset_Ok DATA_PATH s0) as [s' [He [_ [Hk _]]]].
  rewrite He. simpl. now apply Hk.
Qed.

(** X13. A run touches nothing but its eight paths, whatever its outcome,
    and never changes an input file that is already there. *)
Theorem main_frame (s : fs) :
  (forall p, ~ In p touched_paths -> snd (main s) p = s p) /\
  (forall n, s DATA_PATH = Some n -> snd (main s) DATA_PATH = Some n).
Proof.
  split.
  - intros p Hp. unfold touched_paths in Hp. simpl in Hp.
    apply (main_keeps p (s p)); [| | | reflexivity].
    + intros ->. apply Hp. tauto.
    + intros H. apply Hp. simpl in H. tauto.
    + apply keeps_ensure_dataset. intros ->. apply Hp. tauto.
  - intros n Hn. now apply (main_keeps_input n).
Qed.

(** ** When a run succeeds *)

(** The state in which a run starts its work: the output folder made and
    the input file in place. *)
Lemma main_after_setup (s : fs) :
  (s OK = None \/ s OK = Some Dir) ->
  exists s0,
    main s = main s0 /\
    s0 OK = Some Dir /\
    (forall content, input_text s = Some content -> s0 DATA_PATH = Some (File content)) /\
    (s DATA_PATH = Some Dir -> s0 DATA_PATH = Some Dir) /\
    (forall p, p <> OK -> p <> DATA_PATH -> s0 p = s p).
Proof.
  intros Hok.
  destruct (makedirs OK s) as [r s'] eqn:Hmk.
  assert (Hr : r = Ok tt /\ s' OK = Some Dir /\ forall q, q <> OK -> s' q = s q).
  { unfold makedirs in Hmk. destruct Hok as [Hok|Hok]; rewrite Hok in Hmk;
      injection Hmk as <- <-; (split; [reflexivity|]).
    - split; [apply update_same|]. intros q Hq. now apply update_other.
    - now split. }
  destruct Hr as [-> [Hdir Hs']].
  destruct (ensure_dataset_Ok DATA_PATH s') as [s0 [He [Hother [Hkeep Hsome]]]].
  exists s0.
  assert (Hdir0 : s0 OK = Some Dir) by (rewrite Hother by discriminate; exact Hdir).
  assert (Hmk0 : makedirs OK s0 = (Ok tt, s0)) by (unfold makedirs; now rewrite Hdir0).
  assert (He0 : ensure_dataset DATA_PATH s0 = (Ok tt, s0))
    by (now apply ensure_dataset_found).
  split; [|split; [exact Hdir0|split; [|split]]].
  - unfold main. unfold bind at 1. rewrite Hmk. unfold bind at 1. rewrite He.
    symmetry. unfold bind at 1. rewrite Hmk0. unfold bind at 1. rewrite He0. reflexivity.
  - intros content Hin. unfold input_text in Hin.
    destruct (s DATA_PATH) as [[c|]|] eqn:Hp; try discriminate.
    + injection Hin as <-. apply Hkeep. now rewrite Hs' by discriminate.
    + injection Hin as <-.
      assert (Hnone : s' DATA_PATH = None) by (now rewrite Hs' by discriminate).
      rewrite (ensure_dataset_absent DATA_PATH s' Hnone) in He.
      injection He as <-. apply update_same.
  - intros Hp. apply Hkeep. now rewrite Hs' by discriminate.
  - intros p H1 H2. now rewrite Hother, Hs'.
Qed.

Lemma main_refuses_file (s : fs) (c : string) :
  s OK = Some (File c) -> main s = (Raise FileExistsError, s).
Proof. intros H. unfold main, bind, makedirs. now rewrite H. Qed.




(** X15. A run that cannot start or cannot read its input writes no output:
    with a regular file in place of the output folder it raises
    FileExistsError and changes nothing; when reading or cleaning the input
    fails it raises that failure and leaves the six output paths as they
    were. *)
Theorem main_aborts_before_output (s : fs) :
  (forall c, s OK = Some (File c) -> main s = (Raise FileExistsError, s)) /\
  (forall e,
     (s OK = None \/ s OK = Some Dir) ->
     (s DATA_PATH = Some Dir /\ e = IsADirectoryError) \/
     (exists content,
        input_text s = Some content /\
        (read_csv content = Raise e \/
         exists df, read_csv content = Ok df /\ clean df = Raise e)) ->
     fst (main s) = Raise e /\
     forall p, In p (png_outputs ++ csv_outputs) -> snd (main s) p = s p).
Proof.
  split; [apply main_refuses_file|].
  intros e Hok Hfail.
  destruct (main_after_setup s Hok) as [s0 [Hmain [Hdir [Hinput [Hisdir Hsame]]]]].
  assert (Hmk0 : makedirs OK s0 = (Ok tt, s0)) by (unfold makedirs; now rewrite Hdir).
  assert (Hload : load_and_clean DATA_PATH s0 = (Raise e, s0)).
  { unfold load_and_clean, bind, read_file, lift.
    destruct Hfail as [[Hd ->]|[content [Hin Hfail]]].
    - now rewrite (Hisdir Hd).
    - rewrite (Hinput content Hin).
      destruct Hfail as [Hr|[df [Hr Hc]]]; rewrite Hr; [reflexivity | now rewrite Hc]. }
  assert (He0 : ensure_dataset DATA_PATH s0 = (Ok tt, s0)).
  { apply ensure_dataset_found.
    destruct Hfail as [[Hd _]|[content [Hin _]]];
      [rewrite (Hisdir Hd) | rewrite (Hinput content Hin)]; discriminate. }
  assert (Hrun : main s = (Raise e, s0)).
  { rewrite Hmain. unfold main. unfold bind at 1. rewrite Hmk0.
    unfold bind at 1. rewrite He0. unfold bind at 1. now rewrite Hload. }
  rewrite Hrun. simpl. split; [reflexivity|].
  intros p Hp. apply Hsame; intros ->; simpl in Hp; intuition discriminate.
Qed.



(** ** Columns the script does not use *)

Lemma clean_by_columns (df df' : DataFrame) :
  List.length (data df') = List.length (data df) ->
  (forall c, In c canonical ->
     getitem c (rename (fun c => PyStr.title (PyStr.strip c)) (frame_of df'))
     = getitem c (rename (fun c => PyStr.title (PyStr.strip c)) (frame_of df))) ->
  clean df' = clean df.
Proof.
  intros Hlen Hcols. unfold clean, strip_column, numeric_column, int_column.
  rewrite !getitem_select by (unfold canonical; simpl; tauto).
  rewrite !Hcols by (unfold canonical; simpl; tauto).
  now rewrite Hlen.
Qed.

Lemma combine_app_same {A B : Type} (l1 l2 : list A) (m1 m2 : list B) :
  List.length l1 = List.length m1 ->
  combine (l1 ++ l2) (m1 ++ m2) = combine l1 m1 ++ combine l2 m2.
Proof.
  revert m1. induction l1 as [|a l1 IH]; intros [|b m1] H; simpl in *;
    try discriminate; [reflexivity|].
  f_equal. apply IH. lia.
Qed.

Lemma map_fst_combine {A B C : Type} (f : A -> C) (l : list A) (m : list B) :
  List.length m = List.length l ->
  map (fun '(a, _) => f a) (combine l m) = map f l.
Proof.
  revert m. induction l as [|a l IH]; intros [|b m] H; simpl in *;
    try discriminate; [reflexivity|].
  f_equal. apply IH. lia.
Qed.

(** X5. A column whose label is none of the four is ignored (lines 57 and
    58): with such a column added at the right of a table whose rows are
    as long as its header, the cleaning gives the same result. *)
Theorem extra_column_ignored (df : DataFrame) (label : string) (cells : list cell) :
  Forall (fun row => List.length row = List.length (columns df)) (data df) ->
  List.length cells = List.length (data df) ->
  ~ In (PyStr.title (PyStr.strip label)) canonical ->
  clean (with_column df label cells) = clean df.
Proof.
  intros Hrows Hcells Hlabel.
  assert (Hlen : List.length (data (with_column df label cells)) = List.length (data df)).
  { simpl. rewrite length_map, length_combine. lia. }
  apply clean_by_columns; [exact Hlen|].
  intros c Hc. rewrite !rename_frame_of. simpl columns.
  rewrite length_app, map_app, seq_app. simpl List.length. simpl seq.
  rewrite map_app, combine_app_same by (now rewrite !length_map, length_seq).
  rewrite getitem_app.
  assert (Hlast : forall col, getitem c [(PyStr.title (PyStr.strip label), col)] = []).
  { intros col. unfold getitem. simpl.
    destruct (String.eqb_spec (PyStr.title (PyStr.strip label)) c) as [Heq|Hne];
      [|reflexivity].
    rewrite Heq in Hlabel. contradiction. }
  simpl combine at 2. rewrite Hlast, app_nil_r. f_equal. f_equal.
  apply map_ext_in. intros j Hj. apply in_seq in Hj.
  simpl data. rewrite map_map.
  rewrite <- (map_fst_combine (fun row => nth j row NaN) (data df) cells Hcells).
  apply map_ext_in. intros [row x] Hin. apply in_combine_l in Hin.
  rewrite Forall_forall in Hrows. apply app_nth1. rewrite (Hrows row Hin). lia.
Qed.
End Pipeline.

(** ** Two runs of the script *)

Lemma csv_outputs_written (to_csv : list string -> list (list cell) -> string)
    (kind : sorter) (rows : table) (p : string) :
  In p csv_outputs -> exists c, In (p, c) (csv_contents to_csv kind rows).
Proof.
  unfold csv_outputs, csv_contents. simpl.
  intros [<-|[<-|[<-|[<-|[]]]]]; eexists; eauto 6.
Qed.

(** C9. When a run has succeeded, a second run on the files it left
    succeeds too and writes the same text to each of the four CSV files,
    whatever the renderer puts into the charts; and any successful run that
    starts from the same input file writes that same text. *)
Theorem csv_outputs_deterministic
    (str_of_missing : option string) (str_of_float : Q -> string)
    (to_numeric_str : string -> option Q) (read_csv : string -> result DataFrame)
    (to_csv : list string -> list (list cell) -> string) (kind : sorter)
    (savefig savefig' : string -> string -> string -> list (string * Q) -> string)
    (s s1 : fs) :
  main str_of_missing str_of_float to_numeric_str read_csv to_csv kind savefig s
  = (Ok tt, s1) ->
  (exists s2,
     main str_of_missing str_of_float to_numeric_str read_csv to_csv kind savefig' s1
     = (Ok tt, s2) /\
     forall p, In p csv_outputs -> exists c, s1 p = Some (File c) /\ s2 p = Some (File c)) /\
  (forall t t1,
     t DATA_PATH = s1 DATA_PATH ->
     main str_of_missing str_of_float to_numeric_str read_csv to_csv kind savefig' t
     = (Ok tt, t1) ->
     forall p, In p csv_outputs -> t1 p = s1 p).
Proof.
  intros H. apply main_Ok in H.
  destruct H as [content [df [rows [Hp [_ [Hdf [Hc [Hdir [Hcsv Hpng]]]]]]]]].
  split.
  - destruct (main_runs str_of_missing str_of_float to_numeric_str read_csv to_csv kind
                savefig' s1 content df rows Hdir Hp Hdf Hc) as [s2 [Hrun Hcsv2]].
    + intros p Hin. apply in_app_or in Hin. destruct Hin as [Hin|Hin].
      * destruct (Hpng p Hin) as [c Hpc]. congruence.
      * destruct (csv_outputs_written to_csv kind rows p Hin) as [c Hpc].
        rewrite (Hcsv p c Hpc). discriminate.
    + exists s2. split; [exact Hrun|]. intros p Hin.
      destruct (csv_outputs_written to_csv kind rows p Hin) as [c Hpc].
      exists c. split; [now apply Hcsv | now apply Hcsv2].
  - intros t t1 Ht Hrun p Hin. apply main_Ok in Hrun.
    destruct Hrun as [content' [df' [rows' [_ [Hsame [Hdf' [Hc' [_ [Hcsv' _]]]]]]]]].
    rewrite Hp in Ht. apply Hsame in Ht. injection Ht as ->.
    rewrite Hdf in Hdf'. injection Hdf' as <-.
    rewrite Hc in Hc'. injection Hc' as <-.
    destruct (csv_outputs_written to_csv kind rows p Hin) as [c Hpc].
    now rewrite (Hcsv p c Hpc), (Hcsv' p c Hpc).
Qed.

(** ** Where the code leaves the spec *)

(** C1. A row without a Title is not dropped: [astype(str)] has already
    turned the missing value into the text [nan] when [dropna] looks at it
    (pandas before 3.0), so the row is kept with the Title [nan]. *)
Theorem missing_title_row_kept (str_of_float : Q -> string)
    (to_numeric_str : string -> option Q) :
  clean (Some "nan") str_of_float to_numeric_str
    {| columns := ["Title"; "Genre"; "Rating"; "Year"];
       data := [[NaN; Str "Drama"; Float (75 # 10); Int 2020]] |}
  = Ok [(0, {| Title := "nan"; Genre := "Drama"; Rating := (75 # 10)%Q; Year := 2020%Z |})].
Proof. reflexivity. Qed.

(** C5. A Year that reads as a number with a fraction is not turned into
    a missing value: [astype("Int64")] refuses the cast and the whole
    cleaning fails with a TypeError. *)
Theorem fractional_year_raises (str_of_missing : option string)
    (str_of_float : Q -> string) (to_numeric_str : string -> option Q) :
  clean str_of_missing str_of_float to_numeric_str
    {| columns := ["Title"; "Genre"; "Rating"; "Year"];
       data := [[Str "Test"; Str "Drama"; Float (75 # 10); Float (20105 # 10)]] |}
  = Raise TypeError.
Proof. reflexivity. Qed.

(** The bundled sample cleans to itself, all 20 rows. *)
Lemma sample_cleaned (str_of_missing : option string) (str_of_float : Q -> string)
    (to_numeric_str : string -> option Q) :
  clean str_of_missing str_of_float to_numeric_str
    {| columns := ["Title"; "Genre"; "Rating"; "Year"]; data := map movie_cells sample |}
  = Ok (enumerate sample).
Proof. reflexivity. Qed.

(** With a stable kind the Top-N Table is the one the spec describes. *)
Lemma top5_stable_kind (df_clean : table) :
  top5_of insertion_sort df_clean = top5_spec df_clean.
Proof.
  unfold top5_of, top5_spec, sort_values.
  rewrite stable_descending; [reflexivity | apply by_Rating_total | apply by_Rating_transitive].
Qed.


(** X9. The Year Aggregate does not depend on the sort algorithm, unlike the
    Top-N Table: [groupby] already orders the years, which are distinct, so
    every kind of [sort_values] returns the same rows (line 103). *)
Theorem year_aggregate_any_kind (kind kind' : sorter) (df_clean : table) :
  sort_contract kind -> sort_contract kind' ->
  per_year_of kind df_clean = per_year_of kind' df_clean.
Proof.
  intros H H'. now rewrite (per_year_of_groups kind H), (per_year_of_groups kind' H').
Qed.

(** ** The theorems at work on a small input

    The Section variables are set to the functions of [Toy], the sort kind
    to insertion sort, and the file system to [Toy.disk]. *)

Local Abbreviation toy_load :=
  (load_and_clean (Some "nan") Toy.str_of_float Toy.to_numeric_str Toy.read_csv).

Local Abbreviation toy_main :=
  (main (Some "nan") Toy.str_of_float Toy.to_numeric_str Toy.read_csv Toy.to_csv
        insertion_sort).

Lemma cleaned_rating_clamped_witness :
  toy_load "movies.csv" Toy.disk = (Ok Toy.cleaned, Toy.disk) /\
  exists content df,
    Toy.disk "movies.csv" = Some (File content) /\ Toy.read_csv content = Ok df /\
    forall i m, In (i, m) Toy.cleaned ->
      (0 <= Rating m)%Q /\ (Rating m <= 10)%Q /\
      exists q, to_numeric Toy.to_numeric_str (cell_at "Rating" df i) = Some q /\
                ((q < 0)%Q -> Rating m = 0%Q) /\
                ((10 < q)%Q -> Rating m = 10%Q) /\
                ((0 <= q)%Q -> (q <= 10)%Q -> Rating m = q).
Proof.
  assert (H : toy_load "movies.csv" Toy.disk = (Ok Toy.cleaned, Toy.disk))
    by (vm_compute; reflexivity).
  split; [exact H|].
  exact (cleaned_rating_clamped (Some "nan") Toy.str_of_float Toy.to_numeric_str
           Toy.read_csv "movies.csv" Toy.disk Toy.disk Toy.cleaned H).
Defined.

Lemma cleaning_keeps_order_witness :
  toy_load "movies.csv" Toy.disk = (Ok Toy.cleaned, Toy.disk) /\
  exists content df,
    Toy.disk "movies.csv" = Some (File content) /\ Toy.read_csv content = Ok df /\
    Toy.cleaned
    = flat_map (fun i => match clean_row (Some "nan") Toy.str_of_float Toy.to_numeric_str df i with
                         | Some m => [(i, m)]
                         | None => []
                         end)
               (seq 0 (List.length (data df))) /\
    StronglySorted lt (map fst Toy.cleaned).
Proof.
  assert (H : toy_load "movies.csv" Toy.disk = (Ok Toy.cleaned, Toy.disk))
    by (vm_compute; reflexivity).
  split; [exact H|].
  exact (cleaning_keeps_order (Some "nan") Toy.str_of_float Toy.to_numeric_str
           Toy.read_csv "movies.csv" Toy.disk Toy.disk Toy.cleaned H).
Defined.



Lemma year_aggregate_rows_witness :
  let per_year := [(1988%Z, 1); (2009%Z, 2); (2020%Z, 1)] in
  let out_path := "ok/movies_per_year.png" in
  let s' := update out_path
              (File (Toy.savefig "Movies Released Per Year" "Year" "Count"
                       (map (fun '(y, n) => (PyStr.str_of_int y, inject_Z (Z.of_nat n)))
                            per_year)))
              Toy.disk in
  sort_contract insertion_sort /\
  chart_movies_per_year insertion_sort Toy.savefig Toy.cleaned out_path Toy.disk
  = (Ok per_year, s') /\
  NoDup (map fst per_year) /\
  (forall y, In y (map fst per_year) <-> exists i m, In (i, m) Toy.cleaned /\ Year m = y) /\
  (forall y n, In (y, n) per_year ->
     n = List.length (filter (fun row => (Year (snd row) =? y)%Z) Toy.cleaned)) /\
  StronglySorted (fun a b => (fst a < fst b)%Z) per_year /\
  list_sum (map snd per_year) = List.length Toy.cleaned.
Proof.
  intros per_year out_path s'.
  assert (H : chart_movies_per_year insertion_sort Toy.savefig Toy.cleaned out_path Toy.disk
              = (Ok per_year, s'))
    by (vm_compute; reflexivity).
  split; [exact insertion_sort_contract|]. split; [exact H|].
  exact (year_aggregate_rows insertion_sort Toy.savefig insertion_sort_contract
           Toy.cleaned out_path Toy.disk s' per_year H).
Defined.

Lemma ensure_dataset_effect_witness :
  let table_text := Toy.to_csv ["Title"; "Genre"; "Rating"; "Year"] (map movie_cells sample) in
  let empty : fs := fun _ => None in
  (Toy.disk "movies.csv" <> None /\
   ensure_dataset Toy.to_csv "movies.csv" Toy.disk = (Ok tt, Toy.disk)) /\
  (empty "movies.csv" = None /\
   exists s',
     ensure_dataset Toy.to_csv "movies.csv" empty = (Ok tt, s') /\
     s' "movies.csv" = Some (File table_text) /\
     forall q, q <> "movies.csv" -> s' q = empty q).
Proof.
  intros table_text empty.
  assert (Hfound : Toy.disk "movies.csv" <> None) by (vm_compute; discriminate).
  assert (Habsent : empty "movies.csv" = None) by reflexivity.
  split.
  - split; [exact Hfound|].
    exact (proj1 (ensure_dataset_effect Toy.to_csv "movies.csv" Toy.disk) Hfound).
  - split; [exact Habsent|].
    exact (proj1 (proj2 (ensure_dataset_effect Toy.to_csv "movies.csv" empty)) Habsent).
Defined.

Lemma csv_outputs_deterministic_witness :
  let s1 := snd (toy_main Toy.savefig Toy.disk) in
  let savefig' := fun (_ _ _ : string) (_ : list (string * Q)) => "a later rendering" in
  toy_main Toy.savefig Toy.disk = (Ok tt, s1) /\
  (exists s2,
     toy_main savefig' s1 = (Ok tt, s2) /\
     forall p, In p csv_outputs -> exists c, s1 p = Some (File c) /\ s2 p = Some (File c)) /\
  (forall t t1,
     t DATA_PATH = s1 DATA_PATH ->
     toy_main savefig' t = (Ok tt, t1) ->
     forall p, In p csv_outputs -> t1 p = s1 p).
Proof.
  intros s1 savefig'.
  assert (H : toy_main Toy.savefig Toy.disk = (Ok tt, s1)) by (vm_compute; reflexivity).
  split; [exact H|].
  exact (csv_outputs_deterministic (Some "nan") Toy.str_of_float Toy.to_numeric_str
           Toy.read_csv Toy.to_csv insertion_sort Toy.savefig savefig' Toy.disk s1 H).
Defined.



Lemma cleaned_text_trimmed_witness :
  toy_load "movies.csv" Toy.disk = (Ok Toy.cleaned, Toy.disk) /\
  Forall (fun row =>
            starts_with_space (Title (snd row)) = false /\
            ends_with_space (Title (snd row)) = false /\
            starts_with_space (Genre (snd row)) = false /\
            ends_with_space (Genre (snd row)) = false) Toy.cleaned.
Proof.
  assert (H : toy_load "movies.csv" Toy.disk = (Ok Toy.cleaned, Toy.disk))
    by (vm_compute; reflexivity).
  split; [exact H|].
  exact (cleaned_text_trimmed (Some "nan") Toy.str_of_float Toy.to_numeric_str
           Toy.read_csv "movies.csv" Toy.disk Toy.disk Toy.cleaned H).
Defined.

Lemma header_spelling_ignored_witness :
  let rows := [[Str "Up"; Str "Family"; Float (83 # 10); Int 2009]] in
  let df := {| columns := ["Title"; "Genre"; "Rating"; "Year"]; data := rows |} in
  let df' := {| columns := [" title"; "GENRE"; "rating "; "YeaR"]; data := rows |} in
  Forall2 same_header (columns df) (columns df') /\
  data df' = data df /\
  clean (Some "nan") Toy.str_of_float Toy.to_numeric_str df'
  = clean (Some "nan") Toy.str_of_float Toy.to_numeric_str df.
Proof.
  intros rows df df'.
  assert (H : Forall2 same_header (columns df) (columns df')).
  { repeat constructor.
    - exists " ", "", "title". repeat split; reflexivity.
    - exists "", "", "GENRE". repeat split; reflexivity.
    - exists "", " ", "rating". repeat split; reflexivity.
    - exists "", "", "YeaR". repeat split; reflexivity. }
  split; [exact H|]. split; [reflexivity|].
  exact (header_spelling_ignored (Some "nan") Toy.str_of_float Toy.to_numeric_str
           df df' H eq_refl).
Defined.

Lemma extra_column_ignored_witness :
  let df := {| columns := ["Title"; "Genre"; "Rating"; "Year"];
               data := [[Str "Up"; Str "Family"; Float (83 # 10); Int 2009]] |} in
  Forall (fun row => List.length row = List.length (columns df)) (data df) /\
  List.length [Int 5] = List.length (data df) /\
  ~ In (PyStr.title (PyStr.strip "Votes")) canonical /\
  clean (Some "nan") Toy.str_of_float Toy.to_numeric_str (with_column df "Votes" [Int 5])
  = clean (Some "nan") Toy.str_of_float Toy.to_numeric_str df.
Proof.
  intros df.
  assert (H1 : Forall (fun row => List.length row = List.length (columns df)) (data df))
    by (repeat constructor).
  assert (H2 : List.length [Int 5] = List.length (data df)) by reflexivity.
  assert (H3 : ~ In (PyStr.title (PyStr.strip "Votes")) canonical)
    by (vm_compute; intuition discriminate).
  split; [exact H1|]. split; [exact H2|]. split; [exact H3|].
  exact (extra_column_ignored (Some "nan") Toy.str_of_float Toy.to_numeric_str
           df "Votes" [Int 5] H1 H2 H3).
Defined.


Lemma year_aggregate_any_kind_witness :
  sort_contract insertion_sort /\ sort_contract reversing_sort /\
  per_year_of insertion_sort Toy.cleaned = per_year_of reversing_sort Toy.cleaned.
Proof.
  split; [exact insertion_sort_contract|]. split; [exact reversing_sort_contract|].
  exact (year_aggregate_any_kind insertion_sort reversing_sort Toy.cleaned
           insertion_sort_contract reversing_sort_contract).
Defined.

Lemma aggregates_empty_witness :
  sort_contract insertion_sort /\
  (per_year_of insertion_sort Toy.cleaned = [] <-> Toy.cleaned = []) /\
  (genre_avg_of insertion_sort (explode_genres Toy.cleaned) = [] <->
   forall i m, In (i, m) Toy.cleaned -> genre_tokens (Genre m) = []) /\
  (top5_of insertion_sort Toy.cleaned = [] <-> Toy.cleaned = []).
Proof.
  split; [exact insertion_sort_contract|].
  exact (aggregates_empty insertion_sort insertion_sort_contract Toy.cleaned).
Defined.

Lemma top5_of_short_table_witness :
  sort_contract insertion_sort /\
  List.length Toy.cleaned <= 5 /\
  Permutation (map (fun '(i, m) => (i, (Title m, Rating m, Year m))) Toy.cleaned)
              (top5_of insertion_sort Toy.cleaned).
Proof.
  assert (H : List.length Toy.cleaned <= 5) by (vm_compute; lia).
  split; [exact insertion_sort_contract|]. split; [exact H|].
  exact (top5_of_short_table insertion_sort insertion_sort_contract Toy.cleaned H).
Defined.


Lemma main_frame_witness :
  ~ In "notes.txt" touched_paths /\
  snd (toy_main Toy.savefig Toy.disk) "notes.txt" = Toy.disk "notes.txt" /\
  Toy.disk DATA_PATH = Some (File Toy.movies_csv) /\
  snd (toy_main Toy.savefig Toy.disk) DATA_PATH = Some (File Toy.movies_csv).
Proof.
  assert (H1 : ~ In "notes.txt" touched_paths) by (vm_compute; intuition discriminate).
  assert (H2 : Toy.disk DATA_PATH = Some (File Toy.movies_csv)) by reflexivity.
  pose proof (main_frame (Some "nan") Toy.str_of_float Toy.to_numeric_str Toy.read_csv
                Toy.to_csv insertion_sort Toy.savefig Toy.disk) as [Hframe Hinput].
  split; [exact H1|]. split; [exact (Hframe "notes.txt" H1)|].
  split; [exact H2 | exact (Hinput (File Toy.movies_csv) H2)].
Defined.


Lemma main_aborts_before_output_witness :
  let blocked : fs := fun p => if String.eqb p "ok" then Some (File "") else None in
  let unreadable : fs := fun p => if String.eqb p "movies.csv" then Some (File "") else None in
  (blocked OK = Some (File "") /\
   toy_main Toy.savefig blocked = (Raise FileExistsError, blocked)) /\
  ((unreadable OK = None \/ unreadable OK = Some Dir) /\
   input_text Toy.to_csv unreadable = Some "" /\
   Toy.read_csv "" = Raise ParserError /\
   fst (toy_main Toy.savefig unreadable) = Raise ParserError /\
   forall p, In p (png_outputs ++ csv_outputs) ->
             snd (toy_main Toy.savefig unreadable) p = unreadable p).
Proof.
  intros blocked unreadable.
  assert (H1 : blocked OK = Some (File "")) by reflexivity.
  assert (H2 : unreadable OK = None \/ unreadable OK = Some Dir) by (left; reflexivity).
  assert (H3 : input_text Toy.to_csv unreadable = Some "") by reflexivity.
  assert (H4 : Toy.read_csv "" = Raise ParserError) by reflexivity.
  split.
  - split; [exact H1|].
    exact (proj1 (main_aborts_before_output (Some "nan") Toy.str_of_float
                    Toy.to_numeric_str Toy.read_csv Toy.to_csv insertion_sort
                    Toy.savefig blocked) "" H1).
  - split; [exact H2|]. split; [exact H3|]. split; [exact H4|].
    exact (proj2 (main_aborts_before_output (Some "nan") Toy.str_of_float
                    Toy.to_numeric_str Toy.read_csv Toy.to_csv insertion_sort
                    Toy.savefig unreadable) ParserError H2
             (or_intror (ex_intro _ "" (conj H3 (or_introl H4))))).
Defined.

